(** * The IBM enterprise resource binding: schema, validator and CRUD operations

  A shallow embedding of [ibm/service/enterprise/resource_ibm_enterprise.go].
  The file follows the source top to bottom: the regular expression used by
  the schema, the schema itself, the SDK objects the four operations work
  on ([ResourceData], the enterprise management client), and then
  [resourceIbmEnterpriseCreate], [resourceIbmEnterpriseRead],
  [resourceIbmEnterpriseUpdate] and [resourceIbmEnterpriseDelete]. *)

From Stdlib Require Import Ascii String.
From stdpp Require Import base option list strings gmap.


(** ** Go's [regexp], for the syntax the schema's pattern uses *)

Module regexp.

(** One parsed item of a pattern.  A pattern is the concatenation of its
    items. *)
Inductive node : Type :=
| BeginText
| EndText
| Literal (c : ascii)
| CharClass (ranges : list (ascii * ascii))
| Repeat (n : nat) (x : node).

(** Where the parser is inside the pattern text. *)
Inductive mode : Type :=
| Top
| Escaped
| InClass (items : list (ascii * ascii))
| InClassDash (items : list (ascii * ascii)) (lo : ascii)
| InCount (n : option nat).

Definition digit_value (c : ascii) : option nat :=
  let n := nat_of_ascii c in
  if bool_decide (48 ≤ n ≤ 57) then Some (n - 48) else None.

(** Characters with a meaning this fragment does not cover: a pattern that
    uses one is refused rather than misread. *)
Definition unsupported (c : ascii) : bool :=
  bool_decide (c ∈ ["("; ")"; "|"; "*"; "+"; "?"; "."; "]"; "}"]%char).

(** [acc] holds the items read so far, most recent first. *)
Fixpoint parse (m : mode) (acc : list node) (s : string) : option (list node) :=
  match s with
  | EmptyString =>
      match m with Top => Some (rev acc) | _ => None end
  | String c rest =>
      match m with
      | Top =>
          if Ascii.eqb c "^" then parse Top (BeginText :: acc) rest
          else if Ascii.eqb c "$" then parse Top (EndText :: acc) rest
          else if Ascii.eqb c "\" then parse Escaped acc rest
          else if Ascii.eqb c "[" then parse (InClass []) acc rest
          else if Ascii.eqb c "{" then parse (InCount None) acc rest
          else if unsupported c then None
          else parse Top (Literal c :: acc) rest
      | Escaped => parse Top (Literal c :: acc) rest
      | InClass items =>
          if Ascii.eqb c "]" then
            match items with
            | [] => None
            | _ => parse Top (CharClass (rev items) :: acc) rest
            end
          else if Ascii.eqb c "^" then
            match items with
            | [] => None
            | _ => parse (InClass ((c, c) :: items)) acc rest
            end
          else if Ascii.eqb c "\" then None
          else if Ascii.eqb c "-" then
            match items with
            | (lo, hi) :: items' =>
                if Ascii.eqb lo hi then parse (InClassDash items' lo) acc rest
                else parse (InClass ((c, c) :: items)) acc rest
            | [] => parse (InClass [(c, c)]) acc rest
            end
          else parse (InClass ((c, c) :: items)) acc rest
      | InClassDash items lo =>
          if Ascii.eqb c "]" then
            parse Top (CharClass (rev (("-", "-") :: (lo, lo) :: items)%char) :: acc) rest
          else if Ascii.eqb c "\" then None
          else parse (InClass ((lo, c) :: items)) acc rest
      | InCount n =>
          if Ascii.eqb c "}" then
            match n, acc with
            | Some k, x :: acc' => parse Top (Repeat k x :: acc') rest
            | _, _ => None
            end
          else
            match digit_value c with
            | Some d => parse (InCount (Some (10 * default 0 n + d))) acc rest
            | None => None
            end
      end
  end.

Definition Compile (pattern : string) : option (list node) :=
  parse Top [] pattern.

Definition in_range (c : ascii) (r : ascii * ascii) : bool :=
  bool_decide (nat_of_ascii r.1 ≤ nat_of_ascii c ≤ nat_of_ascii r.2).

Definition in_class (ranges : list (ascii * ascii)) (c : ascii) : bool :=
  existsb (in_range c) ranges.

(** [step x bot s] matches item [x] at the front of the remaining text
    [s]; [bot] tells whether the front of [s] is the beginning of the whole
    text.  Every item of this fragment matches in at most one way, so the
    result is the one possible continuation. *)
Fixpoint step (x : node) (bot : bool) (s : string) : option (bool * string) :=
  match x with
  | BeginText => if bot then Some (bot, s) else None
  | EndText => match s with EmptyString => Some (bot, s) | _ => None end
  | Literal c =>
      match s with
      | String a rest => if Ascii.eqb a c then Some (false, rest) else None
      | EmptyString => None
      end
  | CharClass ranges =>
      match s with
      | String a rest => if in_class ranges a then Some (false, rest) else None
      | EmptyString => None
      end
  | Repeat n y =>
      (fix times (k : nat) (b : bool) (t : string) : option (bool * string) :=
         match k with
         | 0 => Some (b, t)
         | S k' =>
             match step y b t with
             | Some (b', t') => times k' b' t'
             | None => None
             end
         end) n bot s
  end.

Fixpoint match_here (r : list node) (bot : bool) (s : string) : bool :=
  match r with
  | [] => true
  | x :: r' =>
      match step x bot s with
      | Some (b', s') => match_here r' b' s'
      | None => false
      end
  end.

(** An unanchored search: a match may start at any offset. *)
Fixpoint search (r : list node) (bot : bool) (s : string) : bool :=
  match_here r bot s ||
  match s with
  | String _ rest => search r false rest
  | EmptyString => false
  end.

(** [regexp.MatchString(pattern, s)]: the second component is the compile
    error, if any. *)
Definition MatchString (pattern s : string) : bool * option string :=
  match Compile pattern with
  | Some r => (search r true s, None)
  | None => (false, Some ("error parsing regexp: " +:+ pattern))
  end.

End regexp.

(** ** The [validate] helpers named by the schema *)

Module validate.

(** Modelled from the spec: [validate.ValidateRegexps] is a helper of this
    repository that is not in the source file; the schema only calls it.
    The spec's "must match the pattern" is read as: the value is accepted
    exactly when [regexp.MatchString] reports a match of the pattern handed
    over at the call site. *)
Definition ValidateRegexps (regex : string) (v : string) : bool :=
  (regexp.MatchString regex v).1.

(** Modelled from the spec: [validate.ValidateAllowedEnterpriseNameValue]
    is likewise absent; the spec says "name must be 3-60 characters". *)
Definition ValidateAllowedEnterpriseNameValue (v : string) : bool :=
  bool_decide (3 ≤ String.length v ≤ 60).

End validate.

(** ** The schema of [ResourceIBMEnterprise] *)

Module schema.

Inductive ValueType : Type := TypeString.

Record Schema : Type := {
  Type_ : ValueType;
  Required : bool;
  Optional : bool;
  Computed : bool;
  ForceNew : bool;
  ValidateFunc : option (string → bool);
}.

End schema.

Definition primary_contact_iam_id_pattern : string := "^IBMid\-[A-Z,0-9]{10}$".

Definition ResourceIBMEnterprise_Schema : list (string * schema.Schema) :=
let field req opt comp fnew vf :=
  {| schema.Type_ := schema.TypeString; schema.Required := req;
     schema.Optional := opt; schema.Computed := comp;
     schema.ForceNew := fnew; schema.ValidateFunc := vf |} in
[ ("source_account_id", field true false false true None);
  ("name", field true false false false
             (Some validate.ValidateAllowedEnterpriseNameValue));
  ("primary_contact_iam_id", field true false false false
             (Some (validate.ValidateRegexps primary_contact_iam_id_pattern)));
  ("domain", field false true false false None);
  ("url", field false false true false None);
  ("enterprise_account_id", field false false true false None);
  ("crn", field false false true false None);
  ("state", field false false true false None);
  ("primary_contact_email", field false false true false None);
  ("created_at", field false false true false None);
  ("created_by", field false false true false None);
  ("updated_at", field false false true false None);
  ("updated_by", field false false true false None) ].

Definition schema_lookup (key : string) : option schema.Schema :=
snd <$> find (λ kv, String.eqb kv.1 key) ResourceIBMEnterprise_Schema.

(** The validator the schema attaches to [key]; an attribute without one
  accepts every string. *)
Definition schema_validator (key : string) (v : string) : bool :=
match schema_lookup key with
| Some sch =>
    match schema.ValidateFunc sch with
    | Some f => f v
    | None => true
    end
| None => false
end.

Definition is_upper (c : ascii) : bool :=
bool_decide (65 ≤ nat_of_ascii c ≤ 90).

Definition is_digit (c : ascii) : bool :=
bool_decide (48 ≤ nat_of_ascii c ≤ 57).

Definition is_comma (c : ascii) : bool := Ascii.eqb c ",".

Fixpoint string_forall (p : ascii → bool) (s : string) : bool :=
match s with
| EmptyString => true
| String c rest => p c && string_forall p rest
end.

(** The characters the pattern's bracket expression lets through. *)
Definition iam_class_char (c : ascii) : bool :=
  is_upper c || is_digit c || is_comma c.

(** ** Go values: errors, diagnostics, pointers *)

(** A Go [error], observed through its [Error()] text. *)
Record error : Type := errorString { Error : string }.

(** [fmt.Errorf(prefix + "%s", err)]. *)
Definition Errorf (prefix : string) (err : error) : error :=
  errorString (prefix +:+ Error err).

(** [fmt.Stringer], the interface the timestamp type is used through. *)
Class Stringer (A : Type) : Type := to_String : A → string.

Module diag.

Inductive Severity : Type := Error | Warning.

Record Diagnostic : Type := { Severity_ : Severity; Summary : string }.

(** The Go [nil] of this slice type is the empty list. *)
Definition Diagnostics : Type := list Diagnostic.

Definition FromErr (err : error) : Diagnostics :=
  match err with
  | errorString msg => [ {| Severity_ := Error; Summary := msg |} ]
  end.

Definition HasError (ds : Diagnostics) : bool :=
  existsb (λ d, match Severity_ d with Error => true | Warning => false end) ds.

End diag.

(** ** [schema.ResourceData], as far as the four operations use it

    The record keeps the identifier and three levels of attribute values:
    the prior state (the last-known values), the planned values (the diff
    computed from the declared configuration) and the values written with
    [Set] during the call.  A read merges the levels, the latest one that
    has the key winning; a key no level has reads as the zero value of its
    type, the empty string. *)

Record ResourceData : Type := {
  rd_id : string;
  rd_state : gmap string string;
  rd_diff : gmap string string;
  rd_set : gmap string string;
}.

Definition Id (d : ResourceData) : string := rd_id d.

Definition SetId (v : string) (d : ResourceData) : ResourceData :=
  {| rd_id := v; rd_state := rd_state d; rd_diff := rd_diff d; rd_set := rd_set d |}.

Definition merge_levels (hi lo : option string) : option string :=
  match hi with
  | Some v => Some v
  | None => lo
  end.

Definition get_state (key : string) (d : ResourceData) : option string :=
  rd_state d !! key.

Definition get_diff (key : string) (d : ResourceData) : option string :=
  merge_levels (rd_diff d !! key) (get_state key d).

Definition get_set (key : string) (d : ResourceData) : option string :=
  merge_levels (rd_set d !! key) (get_diff key d).

Definition Get (key : string) (d : ResourceData) : string :=
  default EmptyString (get_set key d).

(** [GetOk]: the value, and whether the key has been set to a non-zero
    value. *)
Definition GetOk (key : string) (d : ResourceData) : string * bool :=
  match get_set key d with
  | Some v => (v, negb (String.eqb v EmptyString))
  | None => (EmptyString, false)
  end.

(** [HasChange]: the value at the state level against the value at the
    diff level. *)
Definition HasChange (key : string) (d : ResourceData) : bool :=
  negb (String.eqb (default EmptyString (get_state key d))
                   (default EmptyString (get_diff key d))).

(** [d.Set(key, value)] for a string or a [*string]: a key outside the
    schema is refused; a nil pointer is written as the empty string (which
    the SDK reads back as "removed").  The text of the SDK's error is
    abbreviated. *)
Definition write (key v : string) (d : ResourceData) : ResourceData :=
  {| rd_id := rd_id d; rd_state := rd_state d; rd_diff := rd_diff d;
     rd_set := <[key := v]> (rd_set d) |}.

Definition Set_ (key : string) (value : option string) (d : ResourceData)
  : ResourceData * option error :=
  match schema_lookup key with
  | Some _ => (write key (default EmptyString value) d, None)
  | None => (d, Some (errorString ("Invalid address to set: " +:+ key)))
  end.

(** ** The enterprise management client *)

Module DetailedResponse.
Record t : Type := { StatusCode : Z }.
End DetailedResponse.

Module CreateEnterpriseOptions.
Record t : Type := {
  SourceAccountID : option string;
  Name : option string;
  PrimaryContactIamID : option string;
  Domain : option string;
}.
Definition empty : t :=
  {| SourceAccountID := None; Name := None; PrimaryContactIamID := None; Domain := None |}.
Definition SetSourceAccountID (v : string) (o : t) : t :=
  {| SourceAccountID := Some v; Name := Name o;
     PrimaryContactIamID := PrimaryContactIamID o; Domain := Domain o |}.
Definition SetName (v : string) (o : t) : t :=
  {| SourceAccountID := SourceAccountID o; Name := Some v;
     PrimaryContactIamID := PrimaryContactIamID o; Domain := Domain o |}.
Definition SetPrimaryContactIamID (v : string) (o : t) : t :=
  {| SourceAccountID := SourceAccountID o; Name := Name o;
     PrimaryContactIamID := Some v; Domain := Domain o |}.
Definition SetDomain (v : string) (o : t) : t :=
  {| SourceAccountID := SourceAccountID o; Name := Name o;
     PrimaryContactIamID := PrimaryContactIamID o; Domain := Some v |}.
End CreateEnterpriseOptions.

Module CreateEnterpriseResponse.
Record t : Type := { EnterpriseID : option string }.
End CreateEnterpriseResponse.

Module GetEnterpriseOptions.
Record t : Type := { EnterpriseID : option string }.
Definition empty : t := {| EnterpriseID := None |}.
Definition SetEnterpriseID (v : string) (o : t) : t := {| EnterpriseID := Some v |}.
End GetEnterpriseOptions.

Module UpdateEnterpriseOptions.
Record t : Type := {
  EnterpriseID : option string;
  Name : option string;
  PrimaryContactIamID : option string;
  Domain : option string;
}.
Definition empty : t :=
  {| EnterpriseID := None; Name := None; PrimaryContactIamID := None; Domain := None |}.
Definition SetEnterpriseID (v : string) (o : t) : t :=
  {| EnterpriseID := Some v; Name := Name o;
     PrimaryContactIamID := PrimaryContactIamID o; Domain := Domain o |}.
Definition SetName (v : string) (o : t) : t :=
  {| EnterpriseID := EnterpriseID o; Name := Some v;
     PrimaryContactIamID := PrimaryContactIamID o; Domain := Domain o |}.
Definition SetPrimaryContactIamID (v : string) (o : t) : t :=
  {| EnterpriseID := EnterpriseID o; Name := Name o;
     PrimaryContactIamID := Some v; Domain := Domain o |}.
Definition SetDomain (v : string) (o : t) : t :=
  {| EnterpriseID := EnterpriseID o; Name := Name o;
     PrimaryContactIamID := PrimaryContactIamID o; Domain := Some v |}.
End UpdateEnterpriseOptions.

(** The fields of the fetched entity that [Read] copies.  Every field is a
    pointer in Go, hence an option here. *)
Module Enterprise.
Record t (DateTime : Type) : Type := {
  URL : option string;
  EnterpriseAccountID : option string;
  CRN : option string;
  Name : option string;
  Domain : option string;
  State : option string;
  PrimaryContactIamID : option string;
  PrimaryContactEmail : option string;
  CreatedAt : option DateTime;
  CreatedBy : option string;
  UpdatedAt : option DateTime;
  UpdatedBy : option string;
}.
Arguments URL {DateTime}.
Arguments EnterpriseAccountID {DateTime}.
Arguments CRN {DateTime}.
Arguments Name {DateTime}.
Arguments Domain {DateTime}.
Arguments State {DateTime}.
Arguments PrimaryContactIamID {DateTime}.
Arguments PrimaryContactEmail {DateTime}.
Arguments CreatedAt {DateTime}.
Arguments CreatedBy {DateTime}.
Arguments UpdatedAt {DateTime}.
Arguments UpdatedBy {DateTime}.
End Enterprise.

Module enterprisemanagementv1.

(** A call made on the remote system, with the request it carried. *)
Inductive RemoteCall : Type :=
| CreateEnterprise (o : CreateEnterpriseOptions.t)
| GetEnterprise (o : GetEnterpriseOptions.t)
| UpdateEnterprise (o : UpdateEnterpriseOptions.t).

(** The client.  The remote system has a state of its own, so what a call
    answers may depend on every call made before it: each method takes the
    history of earlier calls.  The results are the Go result tuples, [nil]
    being [None]. *)
Record EnterpriseManagementV1 (DateTime : Type) : Type := {
  CreateEnterpriseWithContext :
    list RemoteCall → CreateEnterpriseOptions.t →
    option CreateEnterpriseResponse.t * option DetailedResponse.t * option error;
  GetEnterpriseWithContext :
    list RemoteCall → GetEnterpriseOptions.t →
    option (Enterprise.t DateTime) * option DetailedResponse.t * option error;
  UpdateEnterpriseWithContext :
    list RemoteCall → UpdateEnterpriseOptions.t →
    option DetailedResponse.t * option error;
}.
Arguments CreateEnterpriseWithContext {DateTime}.
Arguments GetEnterpriseWithContext {DateTime}.
Arguments UpdateEnterpriseWithContext {DateTime}.

Definition is_update (c : RemoteCall) : bool :=
  match c with UpdateEnterprise _ => true | _ => false end.

Definition is_get (c : RemoteCall) : bool :=
  match c with GetEnterprise _ => true | _ => false end.

End enterprisemanagementv1.

Module conns.

(** The [conns.ClientSession] interface is declared outside this file; the
    operations use one method of it, which hands out the client or fails.
    The session is the parameter [meta] of every operation. *)
Record ClientSession (DateTime : Type) : Type := {
  EnterpriseManagementV1 :
    enterprisemanagementv1.EnterpriseManagementV1 DateTime + error;
}.
Arguments EnterpriseManagementV1 {DateTime}.

End conns.

(** ** Running an operation

    An operation works on the resource data it was handed and on the remote
    system; [World] holds the first and the log of calls made on the second.
    A step either goes on with a value, returns diagnostics from the
    operation, or faults (a Go panic). *)

Record World : Type := {
  data : ResourceData;
  calls : list enterprisemanagementv1.RemoteCall;
}.

Inductive Flow (A : Type) : Type :=
| Next (a : A)
| Return (ds : diag.Diagnostics)
| Panic (reason : string).
Arguments Next {A}.
Arguments Return {A}.
Arguments Panic {A}.

Definition Go (A : Type) : Type := World → Flow A * World.

Definition ret {A : Type} (a : A) : Go A := λ w, (Next a, w).

Definition bind {A B : Type} (m : Go A) (k : A → Go B) : Go B :=
  λ w,
    match m w with
    | (Next a, w') => k a w'
    | (Return ds, w') => (Return ds, w')
    | (Panic reason, w') => (Panic reason, w')
    end.

Declare Scope go_scope.
Delimit Scope go_scope with go.
Notation "'do' x <- m ; k" := (bind m (λ x, k))
  (at level 10, x name, m at level 100, k at level 200) : go_scope.
Notation "'do' ' p <- m ; k" := (bind m (λ x, match x with p => k end))
  (at level 10, p pattern, m at level 100, k at level 200) : go_scope.
Notation "'run' m ; k" := (bind m (λ _, k))
  (at level 10, m at level 100, k at level 200) : go_scope.

Definition return_ {A : Type} (ds : diag.Diagnostics) : Go A :=
  λ w, (Return ds, w).

Definition panic {A : Type} (reason : string) : Go A :=
  λ w, (Panic reason, w).

Definition the_data : Go ResourceData := λ w, (Next (data w), w).

Definition modify (f : ResourceData → ResourceData) : Go unit :=
  λ w, (Next tt, {| data := f (data w); calls := calls w |}).

(** Reading through a pointer: [nil] faults. *)
Definition deref {A : Type} (p : option A) : Go A :=
  match p with
  | Some a => ret a
  | None => panic "invalid memory address or nil pointer dereference"
  end.

(** A call on the remote system: it is answered from the history so far
    and then logged. *)
Definition remote {R : Type} (c : enterprisemanagementv1.RemoteCall)
    (answer : list enterprisemanagementv1.RemoteCall → R) : Go R :=
  λ w, (Next (answer (calls w)), {| data := data w; calls := calls w ++ [c] |}).

(** [if err = d.Set(key, v); err != nil { return diag.FromErr(fmt.Errorf(
    "[ERROR] Error setting <key>: %s", err)) }] *)
Definition set_or_return (key : string) (v : option string) : Go unit :=
  λ w,
    match Set_ key v (data w) with
    | (d', None) => (Next tt, {| data := d'; calls := calls w |})
    | (_, Some err) =>
        (Return (diag.FromErr (Errorf ("[ERROR] Error setting " +:+ key +:+ ": ") err)), w)
    end.

Definition is_not_found (response : option DetailedResponse.t) : bool :=
  match response with
  | Some r => (DetailedResponse.StatusCode r =? 404)%Z
  | None => false
  end.

(** The request [resourceIbmEnterpriseCreate] builds. *)
Definition createEnterpriseOptions (d : ResourceData) : CreateEnterpriseOptions.t :=
  let o := CreateEnterpriseOptions.empty in
  let o := CreateEnterpriseOptions.SetSourceAccountID (Get "source_account_id" d) o in
  let o := CreateEnterpriseOptions.SetName (Get "name" d) o in
  let o := CreateEnterpriseOptions.SetPrimaryContactIamID (Get "primary_contact_iam_id" d) o in
  if (GetOk "domain" d).2
  then CreateEnterpriseOptions.SetDomain (Get "domain" d) o
  else o.

(** The request [resourceIbmEnterpriseUpdate] builds, with its [hasChange]
    flag. *)
Definition updateEnterpriseOptions (d : ResourceData) : UpdateEnterpriseOptions.t * bool :=
  let o := UpdateEnterpriseOptions.empty in
  let o := UpdateEnterpriseOptions.SetEnterpriseID (Id d) o in
  let hasChange := false in
  let '(o, hasChange) :=
    if HasChange "name" d
    then (UpdateEnterpriseOptions.SetName (Get "name" d) o, true)
    else (o, hasChange) in
  let '(o, hasChange) :=
    if HasChange "primary_contact_iam_id" d
    then (UpdateEnterpriseOptions.SetPrimaryContactIamID (Get "primary_contact_iam_id" d) o, true)
    else (o, hasChange) in
  let '(o, hasChange) :=
    if HasChange "domain" d
    then (UpdateEnterpriseOptions.SetDomain (Get "domain" d) o, true)
    else (o, hasChange) in
  (o, hasChange).

(** ** The four operations

    Each takes the session [meta] and runs on the world that holds the
    resource data [d].  The [context] argument is only passed through to the
    client and the [log.Printf] lines write a debug log; neither is part of
    the model.  The timestamp type of the client library is a parameter, used
    through its [String()] method alone. *)

Section Operations.
Context {DateTime : Type} `{!Stringer DateTime}.
Import enterprisemanagementv1.
Local Open Scope go_scope.

Definition resourceIbmEnterpriseRead (meta : conns.ClientSession DateTime) : Go Empty_set :=
  match conns.EnterpriseManagementV1 meta with
  | inr err => return_ (diag.FromErr err)
  | inl enterpriseManagementClient =>
      do d <- the_data;
      let getEnterpriseOptions :=
        GetEnterpriseOptions.SetEnterpriseID (Id d) GetEnterpriseOptions.empty in
      do '(enterprise, response, err) <-
        remote (GetEnterprise getEnterpriseOptions)
          (λ h, GetEnterpriseWithContext enterpriseManagementClient h getEnterpriseOptions);
      match err with
      | Some err =>
          if is_not_found response
          then run modify (SetId EmptyString); return_ []
          else return_ (diag.FromErr err)
      | None =>
          do enterprise <- deref enterprise;
          run set_or_return "name" (Enterprise.Name enterprise);
          run set_or_return "primary_contact_iam_id" (Enterprise.PrimaryContactIamID enterprise);
          run set_or_return "domain" (Enterprise.Domain enterprise);
          run set_or_return "url" (Enterprise.URL enterprise);
          run set_or_return "enterprise_account_id" (Enterprise.EnterpriseAccountID enterprise);
          run set_or_return "crn" (Enterprise.CRN enterprise);
          run set_or_return "state" (Enterprise.State enterprise);
          run set_or_return "primary_contact_email" (Enterprise.PrimaryContactEmail enterprise);
          do createdAt <- deref (Enterprise.CreatedAt enterprise);
          run set_or_return "created_at" (Some (to_String createdAt));
          run set_or_return "created_by" (Enterprise.CreatedBy enterprise);
          do updatedAt <- deref (Enterprise.UpdatedAt enterprise);
          run set_or_return "updated_at" (Some (to_String updatedAt));
          run set_or_return "updated_by" (Enterprise.UpdatedBy enterprise);
          return_ []
      end
  end.

Definition resourceIbmEnterpriseCreate (meta : conns.ClientSession DateTime) : Go Empty_set :=
  match conns.EnterpriseManagementV1 meta with
  | inr err => return_ (diag.FromErr err)
  | inl enterpriseManagementClient =>
      do d <- the_data;
      let createEnterpriseOptions := createEnterpriseOptions d in
      do '(createEnterpriseResponse, response, err) <-
        remote (CreateEnterprise createEnterpriseOptions)
          (λ h, CreateEnterpriseWithContext enterpriseManagementClient h createEnterpriseOptions);
      match err with
      | Some err => return_ (diag.FromErr err)
      | None =>
          do createEnterpriseResponse <- deref createEnterpriseResponse;
          do enterpriseID <- deref (CreateEnterpriseResponse.EnterpriseID createEnterpriseResponse);
          run modify (SetId enterpriseID);
          resourceIbmEnterpriseRead meta
      end
  end.

Definition resourceIbmEnterpriseUpdate (meta : conns.ClientSession DateTime) : Go Empty_set :=
  match conns.EnterpriseManagementV1 meta with
  | inr err => return_ (diag.FromErr err)
  | inl enterpriseManagementClient =>
      do d <- the_data;
      let '(updateEnterpriseOptions, hasChange) := updateEnterpriseOptions d in
      run (if hasChange then
             do '(response, err) <-
               remote (UpdateEnterprise updateEnterpriseOptions)
                 (λ h, UpdateEnterpriseWithContext enterpriseManagementClient h updateEnterpriseOptions);
             match err with
             | Some err => return_ (diag.FromErr err)
             | None => ret tt
             end
           else ret tt);
      resourceIbmEnterpriseRead meta
  end.

Definition resourceIbmEnterpriseDelete (meta : conns.ClientSession DateTime) : Go Empty_set :=
  run modify (SetId EmptyString);
  return_ [].

End Operations.

(** ** Concrete inputs for the examples *)

(** A timestamp type for the examples: a UTC time, printed in the layout
    [2006-01-02T15:04:05.000Z]. *)
Record UTC : Type := {
  year : nat; month : nat; day : nat;
  hour : nat; minute : nat; second : nat; millis : nat;
}.

Definition digit (n : nat) : ascii := ascii_of_nat (48 + n mod 10).

Definition digits2 (n : nat) : string :=
  String (digit (n / 10)) (String (digit n) EmptyString).

Definition digits3 (n : nat) : string := String (digit (n / 100)) (digits2 n).

Definition digits4 (n : nat) : string := String (digit (n / 1000)) (digits3 n).

#[global] Instance UTC_Stringer : Stringer UTC := λ t,
  digits4 (year t) +:+ "-" +:+ digits2 (month t) +:+ "-" +:+ digits2 (day t) +:+ "T" +:+
  digits2 (hour t) +:+ ":" +:+ digits2 (minute t) +:+ ":" +:+ digits2 (second t) +:+ "." +:+
  digits3 (millis t) +:+ "Z".

Definition t0 : UTC :=
  {| year := 2021; month := 3; day := 9; hour := 14; minute := 5; second := 7; millis := 42 |}.

Definition t1 : UTC :=
  {| year := 2021; month := 4; day := 1; hour := 8; minute := 30; second := 0; millis := 0 |}.

Definition acme : Enterprise.t UTC :=
  {| Enterprise.URL := Some "/v1/enterprises/ent-123";
     Enterprise.EnterpriseAccountID := Some "acc-ent-1";
     Enterprise.CRN := Some "crn:v1:bluemix:public:enterprise::a/acc-ent-1::enterprise:ent-123";
     Enterprise.Name := Some "Acme Corp";
     Enterprise.Domain := Some "acme.com";
     Enterprise.State := Some "active";
     Enterprise.PrimaryContactIamID := Some "IBMid-AB12CD34EF";
     Enterprise.PrimaryContactEmail := Some "owner@acme.com";
     Enterprise.CreatedAt := Some t0;
     Enterprise.CreatedBy := Some "IBMid-AB12CD34EF";
     Enterprise.UpdatedAt := Some t1;
     Enterprise.UpdatedBy := Some "IBMid-ZZ99YY88XX" |}.

(** The same entity as a response that leaves [created_at] out. *)
Definition acme_no_created_at : Enterprise.t UTC :=
  {| Enterprise.URL := Enterprise.URL acme;
     Enterprise.EnterpriseAccountID := Enterprise.EnterpriseAccountID acme;
     Enterprise.CRN := Enterprise.CRN acme;
     Enterprise.Name := Enterprise.Name acme;
     Enterprise.Domain := Enterprise.Domain acme;
     Enterprise.State := Enterprise.State acme;
     Enterprise.PrimaryContactIamID := Enterprise.PrimaryContactIamID acme;
     Enterprise.PrimaryContactEmail := Enterprise.PrimaryContactEmail acme;
     Enterprise.CreatedAt := None;
     Enterprise.CreatedBy := Enterprise.CreatedBy acme;
     Enterprise.UpdatedAt := Enterprise.UpdatedAt acme;
     Enterprise.UpdatedBy := Enterprise.UpdatedBy acme |}.

Definition ok_response : DetailedResponse.t := {| DetailedResponse.StatusCode := 200 |}.
Definition not_found_response : DetailedResponse.t := {| DetailedResponse.StatusCode := 404 |}.
Definition server_error_response : DetailedResponse.t := {| DetailedResponse.StatusCode := 500 |}.

(** A remote that creates [ent-123], serves [entity] on every fetch and
    accepts every update. *)
Definition serving (entity : Enterprise.t UTC)
  : enterprisemanagementv1.EnterpriseManagementV1 UTC :=
  {| enterprisemanagementv1.CreateEnterpriseWithContext := λ _ _,
       (Some {| CreateEnterpriseResponse.EnterpriseID := Some "ent-123" |},
        Some ok_response, None);
     enterprisemanagementv1.GetEnterpriseWithContext := λ _ _,
       (Some entity, Some ok_response, None);
     enterprisemanagementv1.UpdateEnterpriseWithContext := λ _ _,
       (Some ok_response, None) |}.

(** A remote on which every call fails with status [status]. *)
Definition failing (status : Z) (msg : string)
  : enterprisemanagementv1.EnterpriseManagementV1 UTC :=
  {| enterprisemanagementv1.CreateEnterpriseWithContext := λ _ _,
       (None, Some {| DetailedResponse.StatusCode := status |}, Some (errorString msg));
     enterprisemanagementv1.GetEnterpriseWithContext := λ _ _,
       (None, Some {| DetailedResponse.StatusCode := status |}, Some (errorString msg));
     enterprisemanagementv1.UpdateEnterpriseWithContext := λ _ _,
       (Some {| DetailedResponse.StatusCode := status |}, Some (errorString msg)) |}.

(** A remote that creates [ent-123] and then fails every fetch. *)
Definition creating_then_failing
  : enterprisemanagementv1.EnterpriseManagementV1 UTC :=
  {| enterprisemanagementv1.CreateEnterpriseWithContext :=
       enterprisemanagementv1.CreateEnterpriseWithContext (serving acme);
     enterprisemanagementv1.GetEnterpriseWithContext :=
       enterprisemanagementv1.GetEnterpriseWithContext (failing 500 "Internal Server Error");
     enterprisemanagementv1.UpdateEnterpriseWithContext :=
       enterprisemanagementv1.UpdateEnterpriseWithContext (serving acme) |}.

Definition session (client : enterprisemanagementv1.EnterpriseManagementV1 UTC)
  : conns.ClientSession UTC :=
  {| conns.EnterpriseManagementV1 := inl client |}.

Definition no_session : conns.ClientSession UTC :=
  {| conns.EnterpriseManagementV1 := inr (errorString "no IAM credentials configured") |}.

(** The declared configuration of the spec's example, before creation. *)
Definition declared : ResourceData :=
  {| rd_id := EmptyString;
     rd_state := ∅;
     rd_diff := <["source_account_id" := "acc-1"]>
                (<["name" := "Acme Corp"]>
                (<["primary_contact_iam_id" := "IBMid-AB12CD34EF"]>
                (<["domain" := "acme.com"]> ∅)));
     rd_set := ∅ |}.

(** The same configuration with [domain] left out, and with [domain] set
    to the empty string. *)
Definition declared_without_domain : ResourceData :=
  {| rd_id := EmptyString;
     rd_state := ∅;
     rd_diff := <["source_account_id" := "acc-1"]>
                (<["name" := "Acme Corp"]>
                (<["primary_contact_iam_id" := "IBMid-AB12CD34EF"]> ∅));
     rd_set := ∅ |}.

Definition declared_empty_domain : ResourceData :=
  {| rd_id := EmptyString;
     rd_state := ∅;
     rd_diff := <["source_account_id" := "acc-1"]>
                (<["name" := "Acme Corp"]>
                (<["primary_contact_iam_id" := "IBMid-AB12CD34EF"]>
                (<["domain" := EmptyString]> ∅)));
     rd_set := ∅ |}.

(** The created instance, last known with domain [acme.com]. *)
Definition known : ResourceData :=
  {| rd_id := "ent-123";
     rd_state := <["source_account_id" := "acc-1"]>
                 (<["name" := "Acme Corp"]>
                 (<["primary_contact_iam_id" := "IBMid-AB12CD34EF"]>
                 (<["domain" := "acme.com"]> ∅)));
     rd_diff := ∅;
     rd_set := ∅ |}.

(** The same instance with the declared domain changed to [sub.acme.com]. *)
Definition domain_changed : ResourceData :=
  {| rd_id := rd_id known;
     rd_state := rd_state known;
     rd_diff := <["domain" := "sub.acme.com"]> ∅;
     rd_set := ∅ |}.

(** An instance record whose identifier is unset. *)
Definition absent : ResourceData :=
  {| rd_id := EmptyString; rd_state := ∅; rd_diff := ∅; rd_set := ∅ |}.

Definition fresh (d : ResourceData) : World := {| data := d; calls := [] |}.

(** ** Vocabulary for the statements below *)

(** The request of the fetch [resourceIbmEnterpriseRead] makes from [w], and
    [w] once that fetch is logged. *)
Definition fetch_options (w : World) : GetEnterpriseOptions.t :=
  GetEnterpriseOptions.SetEnterpriseID (Id (data w)) GetEnterpriseOptions.empty.

Definition fetched (w : World) : World :=
  {| data := data w;
     calls := calls w ++ [enterprisemanagementv1.GetEnterprise (fetch_options w)] |}.

(** The first eight writes of [resourceIbmEnterpriseRead], which precede the
    first timestamp. *)
Definition first_writes {DateTime : Type} (e : Enterprise.t DateTime)
    (d : ResourceData) : ResourceData :=
  write "primary_contact_email" (default EmptyString (Enterprise.PrimaryContactEmail e))
 (write "state" (default EmptyString (Enterprise.State e))
 (write "crn" (default EmptyString (Enterprise.CRN e))
 (write "enterprise_account_id" (default EmptyString (Enterprise.EnterpriseAccountID e))
 (write "url" (default EmptyString (Enterprise.URL e))
 (write "domain" (default EmptyString (Enterprise.Domain e))
 (write "primary_contact_iam_id" (default EmptyString (Enterprise.PrimaryContactIamID e))
 (write "name" (default EmptyString (Enterprise.Name e)) d))))))).

(** Every attribute [resourceIbmEnterpriseRead] copies reads as the fetched
    value: a string field as the string it points to (the empty string for a
    nil pointer), a timestamp as its [String()]. *)
Definition hydrated {DateTime : Type} `{!Stringer DateTime}
    (e : Enterprise.t DateTime) (d : ResourceData) : Prop :=
  Get "name" d = default EmptyString (Enterprise.Name e) ∧
  Get "primary_contact_iam_id" d = default EmptyString (Enterprise.PrimaryContactIamID e) ∧
  Get "domain" d = default EmptyString (Enterprise.Domain e) ∧
  Get "url" d = default EmptyString (Enterprise.URL e) ∧
  Get "enterprise_account_id" d = default EmptyString (Enterprise.EnterpriseAccountID e) ∧
  Get "crn" d = default EmptyString (Enterprise.CRN e) ∧
  Get "state" d = default EmptyString (Enterprise.State e) ∧
  Get "primary_contact_email" d = default EmptyString (Enterprise.PrimaryContactEmail e) ∧
  Some (Get "created_at" d) = to_String <$> Enterprise.CreatedAt e ∧
  Get "created_by" d = default EmptyString (Enterprise.CreatedBy e) ∧
  Some (Get "updated_at" d) = to_String <$> Enterprise.UpdatedAt e ∧
  Get "updated_by" d = default EmptyString (Enterprise.UpdatedBy e).

(** The attributes an update request carries, with their values. *)
Definition carried (o : UpdateEnterpriseOptions.t) : list (string * string) :=
  match UpdateEnterpriseOptions.Name o with
  | Some v => [("name", v)] | None => [] end ++
  match UpdateEnterpriseOptions.PrimaryContactIamID o with
  | Some v => [("primary_contact_iam_id", v)] | None => [] end ++
  match UpdateEnterpriseOptions.Domain o with
  | Some v => [("domain", v)] | None => [] end.

(** The mutable attributes whose declared value differs from the last-known
    one, with their declared values. *)
Definition changed (d : ResourceData) : list (string * string) :=
  map (λ key, (key, Get key d))
      (List.filter (λ key, HasChange key d)
                   ["name"; "primary_contact_iam_id"; "domain"]).

Definition update_calls (w : World) : nat :=
  length (List.filter enterprisemanagementv1.is_update (calls w)).

Definition fetch_calls (w : World) : nat :=
  length (List.filter enterprisemanagementv1.is_get (calls w)).

(** [w] once the call [c] is logged. *)
Definition logged (c : enterprisemanagementv1.RemoteCall) (w : World) : World :=
  {| data := data w; calls := calls w ++ [c] |}.

(** ** Vocabulary for the further properties *)

(** The twelve writes of a [Read] that runs to its end. *)
Definition all_writes {DateTime : Type} `{!Stringer DateTime}
    (e : Enterprise.t DateTime) (createdAt updatedAt : DateTime)
    (d : ResourceData) : ResourceData :=
  write "updated_by" (default EmptyString (Enterprise.UpdatedBy e))
 (write "updated_at" (to_String updatedAt)
 (write "created_by" (default EmptyString (Enterprise.CreatedBy e))
 (write "created_at" (to_String createdAt) (first_writes e d)))).

(** The request of the fetch for identifier [id]. *)
Definition fetch_of (id : string) : enterprisemanagementv1.RemoteCall :=
  enterprisemanagementv1.GetEnterprise
    (GetEnterpriseOptions.SetEnterpriseID id GetEnterpriseOptions.empty).

(** The entity of the examples as a response that leaves [updated_at] out. *)
Definition acme_no_updated_at : Enterprise.t UTC :=
  {| Enterprise.URL := Enterprise.URL acme;
     Enterprise.EnterpriseAccountID := Enterprise.EnterpriseAccountID acme;
     Enterprise.CRN := Enterprise.CRN acme;
     Enterprise.Name := Enterprise.Name acme;
     Enterprise.Domain := Enterprise.Domain acme;
     Enterprise.State := Enterprise.State acme;
     Enterprise.PrimaryContactIamID := Enterprise.PrimaryContactIamID acme;
     Enterprise.PrimaryContactEmail := Enterprise.PrimaryContactEmail acme;
     Enterprise.CreatedAt := Enterprise.CreatedAt acme;
     Enterprise.CreatedBy := Enterprise.CreatedBy acme;
     Enterprise.UpdatedAt := None;
     Enterprise.UpdatedBy := Enterprise.UpdatedBy acme |}.

(** A remote whose fetch fails without any response (a transport error). *)
Definition unreachable : enterprisemanagementv1.EnterpriseManagementV1 UTC :=
  {| enterprisemanagementv1.CreateEnterpriseWithContext := λ _ _,
       (None, None, Some (errorString "dial tcp: i/o timeout"));
     enterprisemanagementv1.GetEnterpriseWithContext := λ _ _,
       (None, None, Some (errorString "dial tcp: i/o timeout"));
     enterprisemanagementv1.UpdateEnterpriseWithContext := λ _ _,
       (None, Some (errorString "dial tcp: i/o timeout")) |}.

(** A remote that answers every call with an empty body: no error, and no
    result either. *)
Definition answering_nothing : enterprisemanagementv1.EnterpriseManagementV1 UTC :=
  {| enterprisemanagementv1.CreateEnterpriseWithContext := λ _ _,
       (None, Some ok_response, None);
     enterprisemanagementv1.GetEnterpriseWithContext := λ _ _,
       (None, Some ok_response, None);
     enterprisemanagementv1.UpdateEnterpriseWithContext := λ _ _,
       (Some ok_response, None) |}.

(** ** Facts about the matcher *)

Example compile_pattern :
  regexp.Compile primary_contact_iam_id_pattern =
  Some [regexp.BeginText;
        regexp.Literal "I"; regexp.Literal "B"; regexp.Literal "M";
        regexp.Literal "i"; regexp.Literal "d"; regexp.Literal "-";
        regexp.Repeat 10 (regexp.CharClass [("A", "Z"); (",", ","); ("0", "9")]%char);
        regexp.EndText].
Proof. vm_compute. reflexivity. Qed.

Section matcher_facts.
Import regexp.

Lemma search_after_begin r s : search (BeginText :: r) false s = false.
Proof. induction s as [|c s IH]; simpl; auto. Qed.

Lemma search_anchored r s :
  search (BeginText :: r) true s = match_here r true s.
Proof.
  destruct s as [|c s]; simpl.
  - apply orb_false_r.
  - rewrite search_after_begin. apply orb_false_r.
Qed.

Lemma match_here_literal c r b s :
  match_here (Literal c :: r) b s = true ↔
  ∃ s', s = String c s' ∧ match_here r false s' = true.
Proof.
  simpl. destruct s as [|a s].
  - split; [discriminate | intros (s' & E & _); discriminate].
  - destruct (Ascii.eqb_spec a c) as [->|Hne].
    + split; [eauto | intros (s' & E & H); congruence].
    + split; [discriminate | intros (s' & E & _); congruence].
Qed.

Lemma match_here_end b s : match_here [EndText] b s = true ↔ s = EmptyString.
Proof. destruct s; simpl; split; congruence. Qed.

Lemma append_nil s : EmptyString +:+ s = s.
Proof. reflexivity. Qed.

Lemma append_cons c t s : String c t +:+ s = String c (t +:+ s).
Proof. reflexivity. Qed.

Lemma append_nil_r s : s +:+ EmptyString = s.
Proof. induction s as [|c s IH]; [|rewrite append_cons, IH]; reflexivity. Qed.

Lemma match_here_repeat_class n cls r b s :
  match_here (Repeat (S n) (CharClass cls) :: r) b s = true ↔
  ∃ t s', s = t +:+ s' ∧ String.length t = S n ∧
          string_forall (in_class cls) t = true ∧
          match_here r false s' = true.
Proof.
  revert b s. induction n as [|n IH]; intros b s.
  - simpl. destruct s as [|a s].
    + split; [discriminate | intros ([|? ?] & s' & E & L & _); discriminate].
    + destruct (in_class cls a) eqn:Ha.
      * split.
        -- intros H. exists (String a EmptyString), s. simpl. rewrite Ha. auto.
        -- intros ([|a' [|? ?]] & s' & E & L & F & H); try discriminate.
           rewrite append_cons, append_nil in E. congruence.
      * split; [discriminate |].
        intros ([|a' t] & s' & E & L & F & H); try discriminate.
        rewrite append_cons in E. injection E as -> _.
        simpl in F. rewrite Ha in F. discriminate.
  - specialize (IH false). simpl in IH |- *. destruct s as [|a s].
    + split; [discriminate | intros ([|? ?] & s' & E & L & _); discriminate].
    + destruct (in_class cls a) eqn:Ha.
      * rewrite (IH s). split.
        -- intros (t & s' & -> & L & F & H).
           exists (String a t), s'. simpl. rewrite Ha, L, F. auto.
        -- intros ([|a' t] & s' & E & L & F & H); try discriminate.
           rewrite append_cons in E. injection E as -> ->.
           simpl in L, F. injection L as L. rewrite Ha in F.
           exists t, s'. auto.
      * split; [discriminate |].
        intros ([|a' t] & s' & E & L & F & H); try discriminate.
        rewrite append_cons in E. injection E as -> _.
        simpl in F. rewrite Ha in F. discriminate.
Qed.

End matcher_facts.

Lemma iam_class_spec c :
  regexp.in_class [("A", "Z"); (",", ","); ("0", "9")]%char c = iam_class_char c.
Proof.
  destruct c as [[] [] [] [] [] [] [] []]; vm_compute; reflexivity.
Qed.

Lemma string_forall_ext p q s :
  (∀ c, p c = q c) → string_forall p s = string_forall q s.
Proof. intros E. induction s as [|c s IH]; simpl; [|rewrite E, IH]; auto. Qed.

(** What the validator of [primary_contact_iam_id] accepts, exactly: the
    prefix [IBMid-] followed by ten characters, each an upper-case letter, a
    digit or a comma. *)
Lemma primary_contact_iam_id_accepts s :
  schema_validator "primary_contact_iam_id" s = true ↔
  ∃ t, s = "IBMid-" +:+ t ∧ String.length t = 10 ∧
       string_forall iam_class_char t = true.
Proof.
  change (schema_validator "primary_contact_iam_id" s)
    with (validate.ValidateRegexps primary_contact_iam_id_pattern s).
  unfold validate.ValidateRegexps, regexp.MatchString.
  rewrite compile_pattern. cbn [fst].
  rewrite search_anchored.
  rewrite match_here_literal. split.
  - intros (s1 & -> & H). apply match_here_literal in H as (s2 & -> & H).
    apply match_here_literal in H as (s3 & -> & H).
    apply match_here_literal in H as (s4 & -> & H).
    apply match_here_literal in H as (s5 & -> & H).
    apply match_here_literal in H as (s6 & -> & H).
    apply match_here_repeat_class in H as (t & s' & -> & L & F & H).
    apply match_here_end in H as ->.
    exists t. split; [|split; [exact L|]].
    + rewrite append_nil_r. reflexivity.
    + erewrite string_forall_ext; [exact F|].
      intros c. symmetry. apply iam_class_spec.
  - intros (t & -> & L & F). eexists. split; [reflexivity|].
    do 5 (apply match_here_literal; eexists; split; [reflexivity|]).
    apply match_here_repeat_class. exists t, EmptyString.
    split; [|split; [exact L|split; [|reflexivity]]].
    + symmetry. apply append_nil_r.
    + erewrite string_forall_ext; [exact F | apply iam_class_spec].
Qed.

(** C8. The validator attached to [primary_contact_iam_id] accepts
    [IBMid-AB12,D34EF]: the prefix followed by ten characters of which one is
    a comma, so not ten upper-case letters or digits. *)
Theorem primary_contact_iam_id_accepts_comma :
  schema_validator "primary_contact_iam_id" "IBMid-AB12,D34EF" = true ∧
  string_forall (λ c, is_upper c || is_digit c) "AB12,D34EF" = false.
Proof. split; vm_compute; reflexivity. Qed.

(** ** Facts about [ResourceData] *)

Lemma Get_write_eq key v d : Get key (write key v d) = v.
Proof. unfold Get, get_set, write; simpl. rewrite lookup_insert_eq. reflexivity. Qed.

Lemma Get_write_ne key key' v d :
  key' ≠ key → Get key (write key' v d) = Get key d.
Proof.
  intros Hne. unfold Get, get_set, get_diff, get_state, write; simpl.
  rewrite lookup_insert_ne by exact Hne. reflexivity.
Qed.

Lemma GetOk_ok key d :
  (GetOk key d).2 = negb (String.eqb (Get key d) EmptyString).
Proof. unfold GetOk, Get. destruct (get_set key d); reflexivity. Qed.

Lemma set_or_return_known key v w :
  is_Some (schema_lookup key) →
  set_or_return key v w =
  (Next tt, {| data := write key (default EmptyString v) (data w); calls := calls w |}).
Proof. intros [sch E]. unfold set_or_return, Set_. rewrite E. reflexivity. Qed.

Lemma known_keys :
  Forall (λ key, is_Some (schema_lookup key))
    ["name"; "primary_contact_iam_id"; "domain"; "url"; "enterprise_account_id";
     "crn"; "state"; "primary_contact_email"; "created_at"; "created_by";
     "updated_at"; "updated_by"].
Proof. repeat constructor; vm_compute; eauto. Qed.

#[local] Arguments set_or_return : simpl never.
#[local] Arguments write : simpl never.

Ltac known_key :=
  let H := fresh in
  pose proof known_keys as H;
  rewrite Forall_forall in H; apply H; cbn; tauto.

Ltac go_unfold :=
  unfold bind, the_data, remote, modify, return_, deref;
  unfold ret, panic; cbn beta iota.

Ltac run_sets :=
  repeat (rewrite set_or_return_known by known_key; cbn beta iota; cbn [data calls]).

(** ** The outcomes of [resourceIbmEnterpriseRead] *)

Section Read_facts.
Context {DateTime : Type} `{!Stringer DateTime}.
Import enterprisemanagementv1.

Implicit Types (meta : conns.ClientSession DateTime) (w : World)
  (client : EnterpriseManagementV1 DateTime) (e : Enterprise.t DateTime).

Lemma Read_no_session meta w err :
  conns.EnterpriseManagementV1 meta = inr err →
  resourceIbmEnterpriseRead meta w = (Return (diag.FromErr err), w).
Proof. intros E. unfold resourceIbmEnterpriseRead. rewrite E. reflexivity. Qed.

Lemma Read_fetch_failed meta client w result response err :
  conns.EnterpriseManagementV1 meta = inl client →
  GetEnterpriseWithContext client (calls w) (fetch_options w) = (result, response, Some err) →
  resourceIbmEnterpriseRead meta w =
  if is_not_found response
  then (Return [], {| data := SetId EmptyString (data w); calls := calls (fetched w) |})
  else (Return (diag.FromErr err), fetched w).
Proof.
  intros E F. unfold resourceIbmEnterpriseRead. rewrite E.
  go_unfold. fold (fetch_options w). rewrite F.
  destruct (is_not_found response); reflexivity.
Qed.

Lemma Read_nil_entity meta client w response :
  conns.EnterpriseManagementV1 meta = inl client →
  GetEnterpriseWithContext client (calls w) (fetch_options w) = (None, response, None) →
  ∃ reason, resourceIbmEnterpriseRead meta w = (Panic reason, fetched w).
Proof.
  intros E F. unfold resourceIbmEnterpriseRead. rewrite E.
  go_unfold. fold (fetch_options w). rewrite F. eexists. reflexivity.
Qed.

Lemma Read_fetch_ok meta client w e response :
  conns.EnterpriseManagementV1 meta = inl client →
  GetEnterpriseWithContext client (calls w) (fetch_options w) = (Some e, response, None) →
  resourceIbmEnterpriseRead meta w =
  match Enterprise.CreatedAt e, Enterprise.UpdatedAt e with
  | None, _ =>
      (Panic "invalid memory address or nil pointer dereference",
       {| data := first_writes e (data w); calls := calls (fetched w) |})
  | Some createdAt, None =>
      (Panic "invalid memory address or nil pointer dereference",
       {| data := write "created_by" (default EmptyString (Enterprise.CreatedBy e))
                 (write "created_at" (to_String createdAt) (first_writes e (data w)));
          calls := calls (fetched w) |})
  | Some createdAt, Some updatedAt =>
      (Return [],
       {| data := write "updated_by" (default EmptyString (Enterprise.UpdatedBy e))
                 (write "updated_at" (to_String updatedAt)
                 (write "created_by" (default EmptyString (Enterprise.CreatedBy e))
                 (write "created_at" (to_String createdAt) (first_writes e (data w)))));
          calls := calls (fetched w) |})
  end.
Proof.
  intros E F. unfold resourceIbmEnterpriseRead. rewrite E.
  go_unfold. fold (fetch_options w). rewrite F. cbn [data calls].
  run_sets.
  destruct (Enterprise.CreatedAt e) as [createdAt|]; [|reflexivity].
  run_sets.
  destruct (Enterprise.UpdatedAt e) as [updatedAt|]; [|reflexivity].
  run_sets. reflexivity.
Qed.

End Read_facts.

(** ** Consequences for [resourceIbmEnterpriseRead] *)

Section Read_claims.
Context {DateTime : Type} `{!Stringer DateTime}.
Import enterprisemanagementv1.

Implicit Types (meta : conns.ClientSession DateTime) (w : World)
  (client : EnterpriseManagementV1 DateTime) (e : Enterprise.t DateTime).

Ltac read_writes :=
  unfold first_writes;
  repeat (rewrite Get_write_eq || rewrite Get_write_ne by discriminate).

Lemma hydrated_after_writes e createdAt updatedAt d :
  Enterprise.CreatedAt e = Some createdAt →
  Enterprise.UpdatedAt e = Some updatedAt →
  hydrated e
    (write "updated_by" (default EmptyString (Enterprise.UpdatedBy e))
    (write "updated_at" (to_String updatedAt)
    (write "created_by" (default EmptyString (Enterprise.CreatedBy e))
    (write "created_at" (to_String createdAt) (first_writes e d))))).
Proof.
  intros Ec Eu. unfold hydrated. rewrite Ec, Eu. read_writes.
  repeat split; reflexivity.
Qed.

(** Whatever the fetch answers, a [Read] that has a client logs exactly one
    call, the fetch. *)
Lemma Read_calls meta client w :
  conns.EnterpriseManagementV1 meta = inl client →
  calls (resourceIbmEnterpriseRead meta w).2 = calls (fetched w).
Proof.
  intros E.
  destruct (GetEnterpriseWithContext client (calls w) (fetch_options w))
    as [[result response] [err|]] eqn:F.
  - rewrite (Read_fetch_failed _ _ _ _ _ _ E F).
    destruct (is_not_found response); reflexivity.
  - destruct result as [e|].
    + rewrite (Read_fetch_ok _ _ _ _ _ E F).
      destruct (Enterprise.CreatedAt e), (Enterprise.UpdatedAt e); reflexivity.
    + destruct (Read_nil_entity _ _ _ _ E F) as [reason ->]. reflexivity.
Qed.

(** C2. When the fetch of [Read] fails with a response of status 404, [Read]
    clears the identifier and returns no diagnostics: it succeeds, and the
    instance is absent afterwards. *)
Theorem Read_not_found_clears_id meta client w result response err :
  conns.EnterpriseManagementV1 meta = inl client →
  GetEnterpriseWithContext client (calls w) (fetch_options w)
    = (result, Some response, Some err) →
  DetailedResponse.StatusCode response = 404%Z →
  resourceIbmEnterpriseRead meta w
    = (Return [], {| data := SetId EmptyString (data w); calls := calls (fetched w) |}) ∧
  (resourceIbmEnterpriseRead meta w).1 = Return [] ∧
  Id (data (resourceIbmEnterpriseRead meta w).2) = EmptyString.
Proof.
  intros E F S. rewrite (Read_fetch_failed _ _ _ _ _ _ E F).
  unfold is_not_found. rewrite S. repeat split.
Qed.

(** C9, as the code has it. When the fetch of [Read] succeeds with an entity
    that carries both timestamps, [Read] returns no diagnostics and every one
    of the twelve attributes reads as the fetched value, the timestamps as
    their [String()]; the identifier and the call log apart from the fetch
    are as before. *)
Theorem Read_overwrites_attributes meta client w e response createdAt updatedAt :
  conns.EnterpriseManagementV1 meta = inl client →
  GetEnterpriseWithContext client (calls w) (fetch_options w) = (Some e, response, None) →
  Enterprise.CreatedAt e = Some createdAt →
  Enterprise.UpdatedAt e = Some updatedAt →
  (resourceIbmEnterpriseRead meta w).1 = Return [] ∧
  hydrated e (data (resourceIbmEnterpriseRead meta w).2) ∧
  Get "created_at" (data (resourceIbmEnterpriseRead meta w).2) = to_String createdAt ∧
  Get "updated_at" (data (resourceIbmEnterpriseRead meta w).2) = to_String updatedAt ∧
  Id (data (resourceIbmEnterpriseRead meta w).2) = Id (data w) ∧
  calls (resourceIbmEnterpriseRead meta w).2 = calls (fetched w).
Proof.
  intros E F Ec Eu. rewrite (Read_fetch_ok _ _ _ _ _ E F), Ec, Eu. cbn [fst snd data calls].
  split; [reflexivity|]. split; [by apply hydrated_after_writes|].
  read_writes. repeat split.
Qed.

(** C10. On the success path of [Read] (the fetch returned an entity and no
    error), [Read] returns normally when both timestamps are present, and it
    faults exactly when one of them is missing. *)
Theorem Read_fault_free_iff_timestamps meta client w e response :
  conns.EnterpriseManagementV1 meta = inl client →
  GetEnterpriseWithContext client (calls w) (fetch_options w) = (Some e, response, None) →
  (is_Some (Enterprise.CreatedAt e) ∧ is_Some (Enterprise.UpdatedAt e) →
   (resourceIbmEnterpriseRead meta w).1 = Return []) ∧
  ((∃ reason, (resourceIbmEnterpriseRead meta w).1 = Panic reason) ↔
   ¬ (is_Some (Enterprise.CreatedAt e) ∧ is_Some (Enterprise.UpdatedAt e))).
Proof.
  intros E F. rewrite (Read_fetch_ok _ _ _ _ _ E F).
  destruct (Enterprise.CreatedAt e) as [createdAt|], (Enterprise.UpdatedAt e) as [updatedAt|];
    cbn [fst]; (split; [|split]).
  all: try (intros [[? ?] [? ?]]; (discriminate || reflexivity)).
  all: try (intros [reason ?]; discriminate).
  all: try (intros _; eexists; reflexivity).
  all: try (intros _ [[? ?] [? ?]]; discriminate).
  intros H. exfalso. apply H. split; eauto.
Qed.

End Read_claims.

(** ** [Create], [Update] and [Delete] *)

Section Write_claims.
Context {DateTime : Type} `{!Stringer DateTime}.
Import enterprisemanagementv1.

Implicit Types (meta : conns.ClientSession DateTime) (w : World)
  (client : EnterpriseManagementV1 DateTime) (e : Enterprise.t DateTime).

Lemma Create_no_session meta w err :
  conns.EnterpriseManagementV1 meta = inr err →
  resourceIbmEnterpriseCreate meta w = (Return (diag.FromErr err), w).
Proof. intros E. unfold resourceIbmEnterpriseCreate. rewrite E. reflexivity. Qed.

Lemma Create_outcome meta client w :
  conns.EnterpriseManagementV1 meta = inl client →
  let o := createEnterpriseOptions (data w) in
  resourceIbmEnterpriseCreate meta w =
  let '(result, _, err) := CreateEnterpriseWithContext client (calls w) o in
  match err with
  | Some err => (Return (diag.FromErr err), logged (CreateEnterprise o) w)
  | None =>
      match result ≫= CreateEnterpriseResponse.EnterpriseID with
      | Some enterpriseID =>
          resourceIbmEnterpriseRead meta
            {| data := SetId enterpriseID (data w); calls := calls w ++ [CreateEnterprise o] |}
      | None =>
          (Panic "invalid memory address or nil pointer dereference",
           logged (CreateEnterprise o) w)
      end
  end.
Proof.
  intros E o. unfold resourceIbmEnterpriseCreate. rewrite E.
  go_unfold. fold o.
  destruct (CreateEnterpriseWithContext client (calls w) o) as [[result response] [err|]];
    [reflexivity|].
  destruct result as [[[enterpriseID|]]|]; reflexivity.
Qed.

Lemma Update_no_session meta w err :
  conns.EnterpriseManagementV1 meta = inr err →
  resourceIbmEnterpriseUpdate meta w = (Return (diag.FromErr err), w).
Proof. intros E. unfold resourceIbmEnterpriseUpdate. rewrite E. reflexivity. Qed.

Lemma Update_outcome meta client w :
  conns.EnterpriseManagementV1 meta = inl client →
  let o := (updateEnterpriseOptions (data w)).1 in
  resourceIbmEnterpriseUpdate meta w =
  if (updateEnterpriseOptions (data w)).2 then
    match (UpdateEnterpriseWithContext client (calls w) o).2 with
    | Some err => (Return (diag.FromErr err), logged (UpdateEnterprise o) w)
    | None => resourceIbmEnterpriseRead meta (logged (UpdateEnterprise o) w)
    end
  else resourceIbmEnterpriseRead meta w.
Proof.
  intros E o. unfold resourceIbmEnterpriseUpdate. rewrite E.
  go_unfold. subst o.
  destruct (updateEnterpriseOptions (data w)) as [o [|]]; cbn [fst snd].
  - destruct (UpdateEnterpriseWithContext client (calls w) o) as [response [err|]];
      reflexivity.
  - destruct w; reflexivity.
Qed.

Lemma Delete_outcome meta w :
  resourceIbmEnterpriseDelete meta w =
  (Return [], {| data := SetId EmptyString (data w); calls := calls w |}).
Proof. reflexivity. Qed.

(** What the update request carries: the identifier, and each mutable
    attribute exactly when it changed, with its declared value. *)
Lemma updateEnterpriseOptions_spec d :
  let o := (updateEnterpriseOptions d).1 in
  UpdateEnterpriseOptions.EnterpriseID o = Some (Id d) ∧
  carried o = changed d ∧
  (updateEnterpriseOptions d).2 = negb (bool_decide (changed d = [])).
Proof.
  unfold updateEnterpriseOptions, carried, changed. cbn [List.filter].
  destruct (HasChange "name" d), (HasChange "primary_contact_iam_id" d),
    (HasChange "domain" d); cbn; repeat split.
Qed.

Lemma update_calls_app w c :
  update_calls (logged c w) = update_calls w + (if is_update c then 1 else 0).
Proof.
  unfold update_calls, logged; cbn [calls].
  rewrite List.filter_app, length_app. cbn [List.filter].
  destruct (is_update c); reflexivity.
Qed.

Lemma Read_update_calls meta w :
  update_calls (resourceIbmEnterpriseRead meta w).2 = update_calls w.
Proof.
  destruct (conns.EnterpriseManagementV1 meta) as [client|err] eqn:E.
  - unfold update_calls at 1. rewrite (Read_calls _ _ _ E).
    change (update_calls (logged (GetEnterprise (fetch_options w)) w) = update_calls w).
    rewrite update_calls_app. cbn. lia.
  - rewrite (Read_no_session _ _ _ E). reflexivity.
Qed.

(** C1, as the code has it. [Update] builds a request that carries exactly
    the changed mutable attributes with their declared values (and so never
    [source_account_id]).  When nothing changed it makes no update call, and
    with a client at hand it is a [Read].  When something changed and a
    client is at hand it makes exactly one update call; if that call
    succeeds it goes on as a [Read], and if it fails it returns the call's
    error without reading. *)
Theorem Update_one_call_then_Read meta w :
  carried (updateEnterpriseOptions (data w)).1 = changed (data w) ∧
  ("source_account_id" ∉ (carried (updateEnterpriseOptions (data w)).1).*1) ∧
  (changed (data w) = [] →
     update_calls (resourceIbmEnterpriseUpdate meta w).2 = update_calls w) ∧
  ∀ client,
    conns.EnterpriseManagementV1 meta = inl client →
    (changed (data w) = [] →
       resourceIbmEnterpriseUpdate meta w = resourceIbmEnterpriseRead meta w) ∧
    (changed (data w) ≠ [] →
       update_calls (resourceIbmEnterpriseUpdate meta w).2 = update_calls w + 1 ∧
       ∀ response err,
         UpdateEnterpriseWithContext client (calls w) (updateEnterpriseOptions (data w)).1
           = (response, err) →
         resourceIbmEnterpriseUpdate meta w =
         match err with
         | None =>
             resourceIbmEnterpriseRead meta
               (logged (UpdateEnterprise (updateEnterpriseOptions (data w)).1) w)
         | Some err =>
             (Return (diag.FromErr err),
              logged (UpdateEnterprise (updateEnterpriseOptions (data w)).1) w)
         end).
Proof.
  destruct (updateEnterpriseOptions_spec (data w)) as (Hid & Hc & Hf).
  assert (∀ client, conns.EnterpriseManagementV1 meta = inl client →
            changed (data w) = [] →
            resourceIbmEnterpriseUpdate meta w = resourceIbmEnterpriseRead meta w) as Hnoop.
  { intros client E Hch. pose proof (Update_outcome _ _ w E) as U. cbv zeta in U.
    rewrite Hf, Hch in U. exact U. }
  split; [exact Hc|]. split; [|split].
  - rewrite Hc. unfold changed. rewrite <- list_fmap_compose.
    intros Hin. apply list_elem_of_fmap in Hin as (key & Hk & Hin).
    apply list_elem_of_In, List.filter_In in Hin as [Hin _].
    cbn in Hk, Hin. subst key. intuition discriminate.
  - intros Hch. destruct (conns.EnterpriseManagementV1 meta) as [client|err] eqn:E.
    + rewrite (Hnoop client eq_refl Hch). apply Read_update_calls.
    + rewrite (Update_no_session _ _ _ E). reflexivity.
  - intros client E. split; [exact (Hnoop client E)|]. intros Hch.
    pose proof (Update_outcome _ _ w E) as U. cbv zeta in U.
    rewrite Hf in U. rewrite bool_decide_eq_false_2 in U by exact Hch. cbn in U.
    split.
    + rewrite U.
      destruct (UpdateEnterpriseWithContext client (calls w)
                  (updateEnterpriseOptions (data w)).1) as [response [err|]];
        cbn [snd].
      * rewrite update_calls_app. reflexivity.
      * rewrite Read_update_calls, update_calls_app. reflexivity.
    + intros response err F. rewrite U, F. destruct err; reflexivity.
Qed.

(** C3. When the creation call fails, [Create] returns that error and leaves
    the resource data as it was; an identifier that was unset stays unset. *)
Theorem Create_failure_leaves_id_unset meta client w result response err :
  conns.EnterpriseManagementV1 meta = inl client →
  CreateEnterpriseWithContext client (calls w) (createEnterpriseOptions (data w))
    = (result, response, Some err) →
  (resourceIbmEnterpriseCreate meta w).1 = Return (diag.FromErr err) ∧
  data (resourceIbmEnterpriseCreate meta w).2 = data w ∧
  (Id (data w) = EmptyString →
   Id (data (resourceIbmEnterpriseCreate meta w).2) = EmptyString).
Proof.
  intros E F. pose proof (Create_outcome _ _ w E) as C. cbv zeta in C.
  rewrite F in C. rewrite C. cbn. auto.
Qed.

(** C4, as the code has it. When the creation call succeeds and returns an
    identifier, [Create] assigns it and goes on as a [Read] of the instance
    so identified, whose outcome is the outcome of [Create].  When the fetch
    of that [Read] succeeds with both timestamps, [Create] returns no
    diagnostics, the identifier is the returned one and every attribute
    [Read] copies holds the fetched value.  When that fetch fails, other than
    with not-found, [Create] returns the fetch error with the identifier
    assigned and nothing else written. *)
Theorem Create_success_assigns_id_then_reads meta client w result response enterpriseID :
  conns.EnterpriseManagementV1 meta = inl client →
  CreateEnterpriseWithContext client (calls w) (createEnterpriseOptions (data w))
    = (Some result, response, None) →
  CreateEnterpriseResponse.EnterpriseID result = Some enterpriseID →
  let created :=
    {| data := SetId enterpriseID (data w);
       calls := calls w ++ [CreateEnterprise (createEnterpriseOptions (data w))] |} in
  resourceIbmEnterpriseCreate meta w = resourceIbmEnterpriseRead meta created ∧
  (∀ e response' createdAt updatedAt,
     GetEnterpriseWithContext client (calls created) (fetch_options created)
       = (Some e, response', None) →
     Enterprise.CreatedAt e = Some createdAt →
     Enterprise.UpdatedAt e = Some updatedAt →
     (resourceIbmEnterpriseCreate meta w).1 = Return [] ∧
     Id (data (resourceIbmEnterpriseCreate meta w).2) = enterpriseID ∧
     hydrated e (data (resourceIbmEnterpriseCreate meta w).2)) ∧
  (∀ result' response' err,
     GetEnterpriseWithContext client (calls created) (fetch_options created)
       = (result', response', Some err) →
     is_not_found response' = false →
     resourceIbmEnterpriseCreate meta w = (Return (diag.FromErr err), fetched created)).
Proof.
  intros E F Hid created. pose proof (Create_outcome _ _ w E) as C. cbv zeta in C.
  rewrite F in C. cbn in C. rewrite Hid in C.
  fold created in C. split; [exact C|]. split.
  - intros e response' createdAt updatedAt G Ec Eu.
    rewrite C, (Read_fetch_ok _ _ _ _ _ E G), Ec, Eu. cbn [fst snd data].
    split; [reflexivity|]. split; [reflexivity|].
    by apply hydrated_after_writes.
  - intros result' response' err G N.
    rewrite C, (Read_fetch_failed _ _ _ _ _ _ E G), N. reflexivity.
Qed.

(** C5, as the code has it. The creation request [Create] builds carries
    [source_account_id], [name] and [primary_contact_iam_id] as declared, and
    carries [domain] exactly when its declared value is not the empty string:
    a domain set to the empty string is left out like one that was never
    set.  With a client at hand, that request is the one [Create] sends. *)
Theorem Create_request_fields meta w :
  CreateEnterpriseOptions.SourceAccountID (createEnterpriseOptions (data w))
    = Some (Get "source_account_id" (data w)) ∧
  CreateEnterpriseOptions.Name (createEnterpriseOptions (data w))
    = Some (Get "name" (data w)) ∧
  CreateEnterpriseOptions.PrimaryContactIamID (createEnterpriseOptions (data w))
    = Some (Get "primary_contact_iam_id" (data w)) ∧
  CreateEnterpriseOptions.Domain (createEnterpriseOptions (data w))
    = (if String.eqb (Get "domain" (data w)) EmptyString
       then None else Some (Get "domain" (data w))) ∧
  ∀ client,
    conns.EnterpriseManagementV1 meta = inl client →
    ∃ rest, calls (resourceIbmEnterpriseCreate meta w).2
            = calls w ++ CreateEnterprise (createEnterpriseOptions (data w)) :: rest.
Proof.
  repeat split.
  1-4: unfold createEnterpriseOptions; rewrite GetOk_ok;
       destruct (String.eqb (Get "domain" (data w)) EmptyString); reflexivity.
  intros client E.
  pose proof (Create_outcome _ _ w E) as C. cbv zeta in C. rewrite C.
  destruct (CreateEnterpriseWithContext client (calls w) (createEnterpriseOptions (data w)))
    as [[result response] [err|]].
  - exists []. reflexivity.
  - destruct (result ≫= CreateEnterpriseResponse.EnterpriseID) as [enterpriseID|];
      [|exists []; reflexivity].
    rewrite (Read_calls _ _ _ E). cbn [fetched calls].
    rewrite <- app_assoc. eexists. reflexivity.
Qed.

(** C6, as the code has it. [Delete] makes no remote call, clears the
    identifier and returns no diagnostics, whatever the session and whatever
    the instance record held before, an unset identifier included. *)
Theorem Delete_clears_id_and_succeeds meta w :
  resourceIbmEnterpriseDelete meta w
    = (Return [], {| data := SetId EmptyString (data w); calls := calls w |}) ∧
  calls (resourceIbmEnterpriseDelete meta w).2 = calls w ∧
  Id (data (resourceIbmEnterpriseDelete meta w).2) = EmptyString.
Proof. rewrite Delete_outcome. repeat split. Qed.

(** C7, as the code has it. When the session cannot hand out a client,
    [Create], [Read] and [Update] return the session's error and leave the
    resource data and the call log untouched; [Delete] does not ask for a
    client and succeeds. *)
Theorem no_client_fails_before_any_work meta w err :
  conns.EnterpriseManagementV1 meta = inr err →
  resourceIbmEnterpriseCreate meta w = (Return (diag.FromErr err), w) ∧
  resourceIbmEnterpriseRead meta w = (Return (diag.FromErr err), w) ∧
  resourceIbmEnterpriseUpdate meta w = (Return (diag.FromErr err), w) ∧
  (resourceIbmEnterpriseDelete meta w).1 = Return [].
Proof.
  intros E. rewrite (Create_no_session _ _ _ E), (Read_no_session _ _ _ E),
    (Update_no_session _ _ _ E), Delete_outcome. repeat split.
Qed.

End Write_claims.

(** ** The statements at concrete inputs *)

Example utc_layout : to_String t0 = "2021-03-09T14:05:07.042Z".
Proof. vm_compute. reflexivity. Qed.

(** The spec's example: [Create] on the declared configuration returns
    [ent-123], and the instance then reads [state] and [crn] as fetched. *)
Example Create_acme :
  let out := resourceIbmEnterpriseCreate (session (serving acme)) (fresh declared) in
  out.1 = Return [] ∧ Id (data out.2) = "ent-123" ∧
  Get "state" (data out.2) = "active" ∧
  Get "crn" (data out.2) = "crn:v1:bluemix:public:enterprise::a/acc-ent-1::enterprise:ent-123" ∧
  Get "created_at" (data out.2) = "2021-03-09T14:05:07.042Z".
Proof. vm_compute. repeat split. Qed.

(** The spec's example: with only [domain] changed, [Update] sends only the
    domain. *)
Example Update_domain_only :
  calls (resourceIbmEnterpriseUpdate (session (serving acme)) (fresh domain_changed)).2 =
  [enterprisemanagementv1.UpdateEnterprise
     {| UpdateEnterpriseOptions.EnterpriseID := Some "ent-123";
        UpdateEnterpriseOptions.Name := None;
        UpdateEnterpriseOptions.PrimaryContactIamID := None;
        UpdateEnterpriseOptions.Domain := Some "sub.acme.com" |};
   enterprisemanagementv1.GetEnterprise
     {| GetEnterpriseOptions.EnterpriseID := Some "ent-123" |}].
Proof. vm_compute. reflexivity. Qed.

(** C1 fails as stated, twice over.  On a remote whose update call fails,
    [Update] with a changed domain makes its one update call and returns the
    error without any fetch: no [Read] follows.  And without a client,
    [Update] with a changed domain makes no update call at all. *)
Lemma Update_failed_call_skips_Read :
  changed domain_changed = [("domain", "sub.acme.com")] ∧
  (let out := resourceIbmEnterpriseUpdate (session (failing 500 "Internal Server Error"))
                (fresh domain_changed) in
   out.1 = Return (diag.FromErr (errorString "Internal Server Error")) ∧
   update_calls out.2 = 1 ∧ fetch_calls out.2 = 0 ∧
   out ≠ resourceIbmEnterpriseRead (session (failing 500 "Internal Server Error"))
           (logged (enterprisemanagementv1.UpdateEnterprise
                      (updateEnterpriseOptions domain_changed).1) (fresh domain_changed))) ∧
  (let out := resourceIbmEnterpriseUpdate no_session (fresh domain_changed) in
   update_calls out.2 = 0 ∧ fetch_calls out.2 = 0).
Proof.
  split; [vm_compute; reflexivity|]. split.
  - cbv zeta. split; [vm_compute; reflexivity|].
    split; [vm_compute; reflexivity|]. split; [vm_compute; reflexivity|].
    intros H. apply (f_equal (λ o, fetch_calls o.2)) in H.
    vm_compute in H. discriminate.
  - vm_compute. split; reflexivity.
Qed.

(** The amended C1 on the spec's example of a changed domain. *)
Lemma Update_one_call_then_Read_witness :
  conns.EnterpriseManagementV1 (session (serving acme)) = inl (serving acme) ∧
  changed (data (fresh domain_changed)) ≠ [] ∧
  update_calls (resourceIbmEnterpriseUpdate (session (serving acme)) (fresh domain_changed)).2
    = update_calls (fresh domain_changed) + 1.
Proof.
  split; [reflexivity|]. split; [vm_compute; discriminate|].
  destruct (Update_one_call_then_Read (session (serving acme)) (fresh domain_changed))
    as (_ & _ & _ & H).
  destruct (H (serving acme) eq_refl) as (_ & H1).
  apply H1. vm_compute; discriminate.
Defined.

(** C2 on a remote that answers every fetch with status 404. *)
Lemma Read_not_found_clears_id_witness :
  DetailedResponse.StatusCode not_found_response = 404%Z ∧
  (resourceIbmEnterpriseRead (session (failing 404 "enterprise not found")) (fresh known)).1
    = Return [] ∧
  Id (data (resourceIbmEnterpriseRead (session (failing 404 "enterprise not found"))
              (fresh known)).2) = EmptyString.
Proof.
  split; [reflexivity|].
  apply (Read_not_found_clears_id (session (failing 404 "enterprise not found"))
           (failing 404 "enterprise not found") (fresh known) None not_found_response
           (errorString "enterprise not found") eq_refl eq_refl eq_refl).
Defined.

(** C3 on a remote that refuses the creation call. *)
Lemma Create_failure_leaves_id_unset_witness :
  Id (data (fresh declared)) = EmptyString ∧
  (resourceIbmEnterpriseCreate (session (failing 403 "Forbidden")) (fresh declared)).1
    = Return (diag.FromErr (errorString "Forbidden")) ∧
  Id (data (resourceIbmEnterpriseCreate (session (failing 403 "Forbidden")) (fresh declared)).2)
    = EmptyString.
Proof.
  split; [reflexivity|].
  destruct (Create_failure_leaves_id_unset (session (failing 403 "Forbidden"))
              (failing 403 "Forbidden") (fresh declared) None
              (Some {| DetailedResponse.StatusCode := 403 |}) (errorString "Forbidden")
              eq_refl eq_refl) as (R & _ & I).
  split; [exact R | exact (I eq_refl)].
Defined.

(** C4 fails as stated.  The creation call succeeds and returns [ent-123],
    the fetch of the [Read] that follows fails: [Create] returns that error
    with the identifier assigned and not one derived attribute populated. *)
Lemma Create_then_failed_Read_is_partial :
  let out := resourceIbmEnterpriseCreate (session creating_then_failing) (fresh declared) in
  out.1 = Return (diag.FromErr (errorString "Internal Server Error")) ∧
  Id (data out.2) = "ent-123" ∧
  rd_set (data out.2) = ∅ ∧
  Get "crn" (data out.2) = EmptyString ∧
  Get "state" (data out.2) = EmptyString.
Proof. vm_compute. repeat split. Qed.

(** The amended C4 on the spec's example. *)
Lemma Create_success_assigns_id_then_reads_witness :
  CreateEnterpriseResponse.EnterpriseID
    {| CreateEnterpriseResponse.EnterpriseID := Some "ent-123" |} = Some "ent-123" ∧
  (resourceIbmEnterpriseCreate (session (serving acme)) (fresh declared)).1 = Return [] ∧
  Id (data (resourceIbmEnterpriseCreate (session (serving acme)) (fresh declared)).2)
    = "ent-123" ∧
  hydrated acme (data (resourceIbmEnterpriseCreate (session (serving acme)) (fresh declared)).2).
Proof.
  split; [reflexivity|].
  destruct (Create_success_assigns_id_then_reads (session (serving acme)) (serving acme)
              (fresh declared) {| CreateEnterpriseResponse.EnterpriseID := Some "ent-123" |}
              (Some ok_response) "ent-123" eq_refl eq_refl eq_refl) as (_ & H & _).
  apply (H acme (Some ok_response) t0 t1); reflexivity.
Defined.

(** C5 fails as stated.  A configuration that sets [domain] to the empty
    string and one that leaves it out differ, yet [Create] sends the same
    request for both, without a domain. *)
Lemma Create_empty_domain_like_omitted :
  rd_diff declared_empty_domain !! "domain" = Some EmptyString ∧
  rd_diff declared_without_domain !! "domain" = None ∧
  createEnterpriseOptions declared_empty_domain
    = createEnterpriseOptions declared_without_domain ∧
  CreateEnterpriseOptions.Domain (createEnterpriseOptions declared_empty_domain) = None ∧
  calls (resourceIbmEnterpriseCreate (session (serving acme)) (fresh declared_empty_domain)).2
    = calls (resourceIbmEnterpriseCreate (session (serving acme))
               (fresh declared_without_domain)).2.
Proof. vm_compute. repeat split. Qed.

(** The amended C5 on the spec's example. *)
Lemma Create_request_fields_witness :
  conns.EnterpriseManagementV1 (session (serving acme)) = inl (serving acme) ∧
  CreateEnterpriseOptions.Domain (createEnterpriseOptions (data (fresh declared)))
    = Some "acme.com" ∧
  ∃ rest, calls (resourceIbmEnterpriseCreate (session (serving acme)) (fresh declared)).2
          = calls (fresh declared)
            ++ enterprisemanagementv1.CreateEnterprise
                 (createEnterpriseOptions (data (fresh declared))) :: rest.
Proof.
  split; [reflexivity|].
  destruct (Create_request_fields (session (serving acme)) (fresh declared))
    as (_ & _ & _ & D & H).
  split; [exact D | exact (H (serving acme) eq_refl)].
Defined.

(** C6 fails as stated.  On an instance whose identifier is already unset,
    [Delete] returns no diagnostics at all: it succeeds, it does not report
    an invalid state. *)
Lemma Delete_unset_id_succeeds :
  Id absent = EmptyString ∧
  ∃ ds, (resourceIbmEnterpriseDelete (session (serving acme)) (fresh absent)).1 = Return ds ∧
        diag.HasError ds = false.
Proof. split; [reflexivity|]. exists []. split; reflexivity. Qed.

(** C7 fails as stated.  With a session that cannot hand out a client,
    [Delete] still succeeds and clears the identifier. *)
Lemma Delete_without_client_succeeds :
  conns.EnterpriseManagementV1 no_session = inr (errorString "no IAM credentials configured") ∧
  resourceIbmEnterpriseDelete no_session (fresh known)
    = (Return [], fresh (SetId EmptyString known)).
Proof. split; reflexivity. Qed.

(** The amended C7 on a session without credentials. *)
Lemma no_client_fails_before_any_work_witness :
  conns.EnterpriseManagementV1 no_session = inr (errorString "no IAM credentials configured") ∧
  resourceIbmEnterpriseUpdate no_session (fresh domain_changed)
    = (Return (diag.FromErr (errorString "no IAM credentials configured")),
       fresh domain_changed).
Proof.
  split; [reflexivity|].
  apply (no_client_fails_before_any_work no_session (fresh domain_changed)
           (errorString "no IAM credentials configured") eq_refl).
Defined.

(** C9 fails as stated.  The fetch succeeds with an entity that has no
    [created_at]; [Read] faults after the first eight writes, and
    [updated_by], which the fetch did return, is not written. *)
Lemma Read_without_created_at_faults :
  enterprisemanagementv1.GetEnterpriseWithContext (serving acme_no_created_at)
    (calls (fresh known)) (fetch_options (fresh known))
    = (Some acme_no_created_at, Some ok_response, None) ∧
  Enterprise.UpdatedBy acme_no_created_at = Some "IBMid-ZZ99YY88XX" ∧
  let out := resourceIbmEnterpriseRead (session (serving acme_no_created_at)) (fresh known) in
  out.1 = Panic "invalid memory address or nil pointer dereference" ∧
  Get "updated_by" (data out.2) = EmptyString ∧
  ¬ hydrated acme_no_created_at (data out.2).
Proof.
  split; [reflexivity|]. split; [reflexivity|]. cbv zeta.
  split; [vm_compute; reflexivity|]. split; [vm_compute; reflexivity|].
  intros H. destruct H as (_ & _ & _ & _ & _ & _ & _ & _ & H & _). discriminate H.
Qed.

(** The amended C9 on the spec's example entity. *)
Lemma Read_overwrites_attributes_witness :
  Enterprise.CreatedAt acme = Some t0 ∧ Enterprise.UpdatedAt acme = Some t1 ∧
  hydrated acme (data (resourceIbmEnterpriseRead (session (serving acme)) (fresh known)).2) ∧
  Get "created_at" (data (resourceIbmEnterpriseRead (session (serving acme)) (fresh known)).2)
    = "2021-03-09T14:05:07.042Z".
Proof.
  split; [reflexivity|]. split; [reflexivity|].
  destruct (Read_overwrites_attributes (session (serving acme)) (serving acme) (fresh known)
              acme (Some ok_response) t0 t1 eq_refl eq_refl eq_refl eq_refl)
    as (_ & H & C & _).
  split; [exact H | exact C].
Defined.

(** C10 on the spec's example entity. *)
Lemma Read_fault_free_iff_timestamps_witness :
  is_Some (Enterprise.CreatedAt acme) ∧ is_Some (Enterprise.UpdatedAt acme) ∧
  (resourceIbmEnterpriseRead (session (serving acme)) (fresh known)).1 = Return [].
Proof.
  split; [by eexists|]. split; [by eexists|].
  apply (Read_fault_free_iff_timestamps (session (serving acme)) (serving acme) (fresh known)
           acme (Some ok_response) eq_refl eq_refl).
  split; by eexists.
Defined.

(** ** Further properties of the schema's validator *)

Lemma string_forall_impl (p q : ascii → bool) s :
  (∀ c, p c = true → q c = true) →
  string_forall p s = true → string_forall q s = true.
Proof.
  intros Hpq. induction s as [|c s IH]; cbn; [reflexivity|].
  rewrite !andb_true_iff. intros [Hc Hs]. auto.
Qed.

(** X1. The validator of [primary_contact_iam_id] accepts every value made
    of [IBMid-] and ten upper-case letters or digits, and every value it
    accepts has exactly sixteen characters and starts with [IBMid-]. *)
Theorem validator_accepts_documented_form :
  (∀ t, String.length t = 10 →
        string_forall (λ c, is_upper c || is_digit c) t = true →
        schema_validator "primary_contact_iam_id" ("IBMid-" +:+ t) = true) ∧
  (∀ s, schema_validator "primary_contact_iam_id" s = true →
        String.length s = 16 ∧ String.prefix "IBMid-" s = true).
Proof.
  split.
  - intros t L F. apply primary_contact_iam_id_accepts. exists t.
    split; [reflexivity|]. split; [exact L|].
    revert F. apply string_forall_impl. intros c H.
    unfold iam_class_char. by rewrite H.
  - intros s H. apply primary_contact_iam_id_accepts in H as (t & -> & L & _).
    rewrite !append_cons, append_nil. cbn [String.length]. rewrite L.
    split; [reflexivity|]. cbn. by destruct t.
Qed.

Lemma validator_accepts_documented_form_witness :
  String.length "AB12CD34EF" = 10 ∧
  schema_validator "primary_contact_iam_id" ("IBMid-" +:+ "AB12CD34EF") = true.
Proof.
  split; [reflexivity|].
  apply (proj1 validator_accepts_documented_form "AB12CD34EF"); reflexivity.
Defined.

(** ** Further properties of the four operations *)

Section Further_properties.
Context {DateTime : Type} `{!Stringer DateTime}.
Import enterprisemanagementv1.

Implicit Types (meta : conns.ClientSession DateTime) (w : World)
  (client : EnterpriseManagementV1 DateTime) (e : Enterprise.t DateTime).

(** Every way a [Read] with a client can go, as cases on the fetch [F]. *)
Ltac fetch_cases E client w :=
  let F := fresh "F" in
  let result := fresh "result" in
  let response := fresh "response" in
  let ferr := fresh "ferr" in
  let e := fresh "e" in
  destruct (GetEnterpriseWithContext client (calls w) (fetch_options w))
    as [[result response] [ferr|]] eqn:F;
  [ rewrite (Read_fetch_failed _ _ _ _ _ _ E F);
    destruct (is_not_found response) eqn:?N
  | destruct result as [e|];
    [ rewrite (Read_fetch_ok _ _ _ _ _ E F);
      destruct (Enterprise.CreatedAt e) as [?createdAt|] eqn:?Ec;
      [ destruct (Enterprise.UpdatedAt e) as [?updatedAt|] eqn:?Eu | ]
    | let reason := fresh "reason" in
      let R := fresh "R" in
      destruct (Read_nil_entity _ _ _ _ E F) as [reason R]; rewrite R ] ].

Ltac read_cases meta w :=
  let E := fresh "E" in
  let client := fresh "client" in
  let serr := fresh "serr" in
  destruct (conns.EnterpriseManagementV1 meta) as [client|serr] eqn:E;
  [ fetch_cases E client w | rewrite (Read_no_session _ _ _ E) ].

Ltac get_writes :=
  unfold all_writes, first_writes;
  repeat (rewrite Get_write_eq || rewrite Get_write_ne by discriminate).

Lemma is_not_found_spec (response : option DetailedResponse.t) :
  is_not_found response = true ↔
  ∃ r, response = Some r ∧ DetailedResponse.StatusCode r = 404%Z.
Proof.
  unfold is_not_found. destruct response as [r|].
  - rewrite Z.eqb_eq. split; [eauto|]. intros (r' & [= <-] & S). exact S.
  - split; [discriminate|]. intros (r & [=] & _).
Qed.

(** X2. A fetch error that does not come with a 404 response (another
    status, or no response at all) is returned as it is, and the resource
    data, identifier included, stays as it was. *)
Theorem Read_other_failure_keeps_record meta client w result response err :
  conns.EnterpriseManagementV1 meta = inl client →
  GetEnterpriseWithContext client (calls w) (fetch_options w) = (result, response, Some err) →
  (∀ r, response = Some r → DetailedResponse.StatusCode r ≠ 404%Z) →
  (resourceIbmEnterpriseRead meta w).1 = Return (diag.FromErr err) ∧
  data (resourceIbmEnterpriseRead meta w).2 = data w.
Proof.
  intros E F N. rewrite (Read_fetch_failed _ _ _ _ _ _ E F).
  destruct (is_not_found response) eqn:H; [|split; reflexivity].
  apply is_not_found_spec in H as (r & -> & S). destruct (N r eq_refl S).
Qed.

(** X3. With a client, [Read] makes exactly one remote call, the fetch for
    the identifier the instance holds at that moment, whatever it is (an
    empty identifier is fetched as well); without a client it makes none. *)
Theorem Read_makes_one_fetch meta w :
  calls (resourceIbmEnterpriseRead meta w).2 =
  calls w ++ match conns.EnterpriseManagementV1 meta with
             | inl _ => [fetch_of (Id (data w))]
             | inr _ => []
             end.
Proof.
  destruct (conns.EnterpriseManagementV1 meta) as [client|serr] eqn:E.
  - rewrite (Read_calls _ _ _ E). reflexivity.
  - rewrite (Read_no_session _ _ _ E). cbn. by rewrite app_nil_r.
Qed.

(** X4. The diagnostics [Read] returns are nil, the session's error or the
    fetch's error: the twelve "Error setting ..." returns cannot happen,
    since every key [Read] sets is in the schema. *)
Theorem Read_returns_only_remote_errors meta w ds :
  (resourceIbmEnterpriseRead meta w).1 = Return ds →
  ds = [] ∨
  (∃ err, conns.EnterpriseManagementV1 meta = inr err ∧ ds = diag.FromErr err) ∨
  (∃ client result response err,
     conns.EnterpriseManagementV1 meta = inl client ∧
     GetEnterpriseWithContext client (calls w) (fetch_options w)
       = (result, response, Some err) ∧
     ds = diag.FromErr err).
Proof.
  read_cases meta w; cbn [fst]; intros [= <-]; eauto 10.
Qed.

(** X5. [Read] never writes [source_account_id] and never touches the prior
    state or the planned values: whatever happens, that attribute reads as
    before. *)
Theorem Read_leaves_source_account_id meta w :
  Get "source_account_id" (data (resourceIbmEnterpriseRead meta w).2)
    = Get "source_account_id" (data w) ∧
  rd_state (data (resourceIbmEnterpriseRead meta w).2) = rd_state (data w) ∧
  rd_diff (data (resourceIbmEnterpriseRead meta w).2) = rd_diff (data w).
Proof.
  read_cases meta w; cbn [snd data fetched]; get_writes; repeat split.
Qed.

(** X6. [Read] changes the identifier in one case only: the fetch failed
    with a 404 response, and then the identifier is cleared. *)
Theorem Read_identifier meta w :
  Id (data (resourceIbmEnterpriseRead meta w).2) = Id (data w) ∨
  (Id (data (resourceIbmEnterpriseRead meta w).2) = EmptyString ∧
   ∃ client result response err,
     conns.EnterpriseManagementV1 meta = inl client ∧
     GetEnterpriseWithContext client (calls w) (fetch_options w)
       = (result, Some response, Some err) ∧
     DetailedResponse.StatusCode response = 404%Z).
Proof.
  read_cases meta w; cbn [snd data fetched]; try (left; reflexivity).
  right. split; [reflexivity|].
  apply is_not_found_spec in N as (r & -> & S). eauto 10.
Qed.

(** X7. [Read] writes in a fixed order and stops at the first missing
    timestamp.  Without [created_at] it faults with the first eight
    attributes written and the last four as they were; with [created_at] but
    without [updated_at] it faults with ten written and the last two as they
    were. *)
Theorem Read_stops_at_missing_timestamp meta client w e response :
  conns.EnterpriseManagementV1 meta = inl client →
  GetEnterpriseWithContext client (calls w) (fetch_options w) = (Some e, response, None) →
  (Enterprise.CreatedAt e = None →
   data (resourceIbmEnterpriseRead meta w).2 = first_writes e (data w) ∧
   Forall (λ key, Get key (data (resourceIbmEnterpriseRead meta w).2) = Get key (data w))
     ["created_at"; "created_by"; "updated_at"; "updated_by"]) ∧
  (∀ createdAt,
     Enterprise.CreatedAt e = Some createdAt →
     Enterprise.UpdatedAt e = None →
     data (resourceIbmEnterpriseRead meta w).2
       = write "created_by" (default EmptyString (Enterprise.CreatedBy e))
           (write "created_at" (to_String createdAt) (first_writes e (data w))) ∧
     Get "created_at" (data (resourceIbmEnterpriseRead meta w).2) = to_String createdAt ∧
     Forall (λ key, Get key (data (resourceIbmEnterpriseRead meta w).2) = Get key (data w))
       ["updated_at"; "updated_by"]) ∧
  Forall (λ kv, Get kv.1 (first_writes e (data w)) = default EmptyString kv.2)
    [("name", Enterprise.Name e);
     ("primary_contact_iam_id", Enterprise.PrimaryContactIamID e);
     ("domain", Enterprise.Domain e);
     ("url", Enterprise.URL e);
     ("enterprise_account_id", Enterprise.EnterpriseAccountID e);
     ("crn", Enterprise.CRN e);
     ("state", Enterprise.State e);
     ("primary_contact_email", Enterprise.PrimaryContactEmail e)].
Proof.
  intros E F. rewrite (Read_fetch_ok _ _ _ _ _ E F). split; [|split].
  - intros ->. cbn [snd data]. split; [reflexivity|].
    repeat constructor; get_writes; reflexivity.
  - intros createdAt -> ->. cbn [snd data]. split; [reflexivity|].
    split; [get_writes; reflexivity|].
    repeat constructor; get_writes; reflexivity.
  - repeat constructor; cbn [fst snd]; get_writes; reflexivity.
Qed.

(** X8. A fetch that returns neither an error nor an entity makes [Read]
    fault at the first field it reads, before anything is written. *)
Theorem Read_faults_on_missing_entity meta client w response :
  conns.EnterpriseManagementV1 meta = inl client →
  GetEnterpriseWithContext client (calls w) (fetch_options w) = (None, response, None) →
  (∃ reason, (resourceIbmEnterpriseRead meta w).1 = Panic reason) ∧
  data (resourceIbmEnterpriseRead meta w).2 = data w.
Proof.
  intros E F. destruct (Read_nil_entity _ _ _ _ E F) as [reason ->].
  split; [eexists|]; reflexivity.
Qed.

Lemma write_absorbed key v d d1 :
  rd_set d1 !! key = Some v → d = d1 → write key v d = d1.
Proof.
  intros H ->. destruct d1; unfold write; cbn in *.
  f_equal. by apply insert_id.
Qed.

Lemma rd_set_write key key' v d :
  rd_set (write key' v d) !! key
  = if decide (key' = key) then Some v else rd_set d !! key.
Proof. unfold write; cbn. apply lookup_insert. Qed.

Ltac set_lookups :=
  unfold all_writes, first_writes;
  repeat (rewrite rd_set_write; case_decide;
          [try discriminate; try reflexivity | try congruence]).

(** X9. Hydration is idempotent: when a second [Read] fetches the entity the
    first one fetched, it succeeds and leaves the resource data exactly as
    the first one left it. *)
Theorem Read_twice_same_entity meta client w e response response' createdAt updatedAt :
  conns.EnterpriseManagementV1 meta = inl client →
  GetEnterpriseWithContext client (calls w) (fetch_options w) = (Some e, response, None) →
  Enterprise.CreatedAt e = Some createdAt →
  Enterprise.UpdatedAt e = Some updatedAt →
  GetEnterpriseWithContext client (calls (resourceIbmEnterpriseRead meta w).2)
      (fetch_options (resourceIbmEnterpriseRead meta w).2) = (Some e, response', None) →
  (resourceIbmEnterpriseRead meta (resourceIbmEnterpriseRead meta w).2).1 = Return [] ∧
  data (resourceIbmEnterpriseRead meta (resourceIbmEnterpriseRead meta w).2).2
    = data (resourceIbmEnterpriseRead meta w).2.
Proof.
  intros E F Ec Eu F'.
  rewrite (Read_fetch_ok _ _ _ _ _ E F'), Ec, Eu. cbn [fst snd data].
  split; [reflexivity|].
  rewrite (Read_fetch_ok _ _ _ _ _ E F), Ec, Eu. cbn [snd data].
  fold (all_writes e createdAt updatedAt (data w)).
  set (d1 := all_writes e createdAt updatedAt (data w)).
  unfold first_writes.
  do 12 (apply write_absorbed; [subst d1; set_lookups|]).
  reflexivity.
Qed.

Lemma schema_key_cases key :
  is_Some (schema_lookup key) →
  key ∈ ["source_account_id"; "name"; "primary_contact_iam_id"; "domain"; "url";
         "enterprise_account_id"; "crn"; "state"; "primary_contact_email";
         "created_at"; "created_by"; "updated_at"; "updated_by"].
Proof.
  unfold schema_lookup, ResourceIBMEnterprise_Schema. cbn [find fst].
  repeat (match goal with
          | |- context [String.eqb ?k key] =>
              destruct (String.eqb_spec k key) as [<-|?];
              [intros _; repeat first [apply list_elem_of_here | apply list_elem_of_further]|]
          end).
  cbn. intros [? [=]].
Qed.

(** X10. A [Read] that runs to its end has written every attribute of the
    schema except [source_account_id], and nothing outside the schema. *)
Theorem Read_writes_the_schema meta client w e response createdAt updatedAt key :
  conns.EnterpriseManagementV1 meta = inl client →
  GetEnterpriseWithContext client (calls w) (fetch_options w) = (Some e, response, None) →
  Enterprise.CreatedAt e = Some createdAt →
  Enterprise.UpdatedAt e = Some updatedAt →
  (is_Some (schema_lookup key) → key ≠ "source_account_id" →
   is_Some (rd_set (data (resourceIbmEnterpriseRead meta w).2) !! key)) ∧
  (schema_lookup key = None →
   rd_set (data (resourceIbmEnterpriseRead meta w).2) !! key = rd_set (data w) !! key) ∧
  rd_set (data (resourceIbmEnterpriseRead meta w).2) !! "source_account_id"
    = rd_set (data w) !! "source_account_id".
Proof.
  intros E F Ec Eu. rewrite (Read_fetch_ok _ _ _ _ _ E F), Ec, Eu. cbn [snd data].
  fold (all_writes e createdAt updatedAt (data w)).
  split; [|split].
  - intros Hk Hne. apply schema_key_cases in Hk.
    repeat (apply elem_of_cons in Hk as [->|Hk]; [try congruence; set_lookups; eauto|]).
    by apply elem_of_nil in Hk.
  - intros Hk. unfold all_writes, first_writes.
    pose proof known_keys as K. rewrite Forall_forall in K.
    repeat (rewrite rd_set_write; destruct (decide _) as [<-|_];
            [exfalso; eapply is_Some_None; rewrite <- Hk; apply K;
             repeat first [apply list_elem_of_here | apply list_elem_of_further]|]).
    reflexivity.
  - set_lookups.
Qed.

Ltac create_cases E client w :=
  let C := fresh "C" in
  pose proof (Create_outcome _ _ w E) as C; cbv zeta in C; rewrite C; clear C;
  destruct (CreateEnterpriseWithContext client (calls w) (createEnterpriseOptions (data w)))
    as [[?result ?response] [?cerr|]] eqn:?FC;
  [ | destruct (_ ≫= CreateEnterpriseResponse.EnterpriseID) as [?enterpriseID|] eqn:?EI ].

Ltac update_cases E client w :=
  let U := fresh "U" in
  pose proof (Update_outcome _ _ w E) as U; cbv zeta in U; rewrite U; clear U;
  destruct (updateEnterpriseOptions (data w)).2 eqn:?HC;
  [ destruct (UpdateEnterpriseWithContext client (calls w) (updateEnterpriseOptions (data w)).1)
      as [?response [?uerr|]] eqn:?FU; cbn [snd] | ].

(** X11. A creation call that returns no error but also no identifier (no
    result, or a result without [EnterpriseID]) makes [Create] fault after
    the call was made: nothing is recorded locally. *)
Theorem Create_faults_without_identifier meta client w result response :
  conns.EnterpriseManagementV1 meta = inl client →
  CreateEnterpriseWithContext client (calls w) (createEnterpriseOptions (data w))
    = (result, response, None) →
  result ≫= CreateEnterpriseResponse.EnterpriseID = None →
  (∃ reason, (resourceIbmEnterpriseCreate meta w).1 = Panic reason) ∧
  data (resourceIbmEnterpriseCreate meta w).2 = data w ∧
  calls (resourceIbmEnterpriseCreate meta w).2
    = calls w ++ [CreateEnterprise (createEnterpriseOptions (data w))].
Proof.
  intros E F N. pose proof (Create_outcome _ _ w E) as C. cbv zeta in C.
  rewrite F, N in C. rewrite C. split; [eexists|]; repeat split.
Qed.

(** X12. The remote calls of [Create]: none without a client; otherwise the
    creation call, followed by one fetch exactly when the creation call
    returned an identifier, and that fetch asks for the identifier just
    returned (not for one the instance held before). *)
Theorem Create_call_shape meta w :
  calls (resourceIbmEnterpriseCreate meta w).2 =
  calls w ++
  match conns.EnterpriseManagementV1 meta with
  | inr _ => []
  | inl client =>
      let '(result, _, err) :=
        CreateEnterpriseWithContext client (calls w) (createEnterpriseOptions (data w)) in
      CreateEnterprise (createEnterpriseOptions (data w)) ::
      match err, result ≫= CreateEnterpriseResponse.EnterpriseID with
      | None, Some enterpriseID => [fetch_of enterpriseID]
      | _, _ => []
      end
  end.
Proof.
  destruct (conns.EnterpriseManagementV1 meta) as [client|serr] eqn:E.
  - create_cases E client w; try reflexivity.
    rewrite (Read_calls _ _ _ E). cbn [fetched calls]. by rewrite <- app_assoc.
  - rewrite (Create_no_session _ _ _ E). cbn. by rewrite app_nil_r.
Qed.

(** X13. An [Update] whose update call (if one is made) and whose fetch
    succeed ends like a successful [Read]: no diagnostics, the identifier as
    before, and every attribute reading as fetched, so for a mutable
    attribute the remote value and not the declared one. *)
Theorem Update_ends_hydrated meta client w e response createdAt updatedAt :
  conns.EnterpriseManagementV1 meta = inl client →
  ((updateEnterpriseOptions (data w)).2 = true →
   (UpdateEnterpriseWithContext client (calls w) (updateEnterpriseOptions (data w)).1).2
     = None) →
  (let before_fetch :=
     if (updateEnterpriseOptions (data w)).2
     then logged (UpdateEnterprise (updateEnterpriseOptions (data w)).1) w
     else w in
   GetEnterpriseWithContext client (calls before_fetch) (fetch_options before_fetch)
     = (Some e, response, None)) →
  Enterprise.CreatedAt e = Some createdAt →
  Enterprise.UpdatedAt e = Some updatedAt →
  (resourceIbmEnterpriseUpdate meta w).1 = Return [] ∧
  Id (data (resourceIbmEnterpriseUpdate meta w).2) = Id (data w) ∧
  hydrated e (data (resourceIbmEnterpriseUpdate meta w).2).
Proof.
  intros E HU F Ec Eu. cbv zeta in F.
  pose proof (Update_outcome _ _ w E) as U. cbv zeta in U. rewrite U. clear U.
  destruct (updateEnterpriseOptions (data w)).2.
  - rewrite (HU eq_refl), (Read_fetch_ok _ _ _ _ _ E F), Ec, Eu. cbn [fst snd data].
    split; [reflexivity|]. split; [reflexivity|]. by apply hydrated_after_writes.
  - rewrite (Read_fetch_ok _ _ _ _ _ E F), Ec, Eu. cbn [fst snd data].
    split; [reflexivity|]. split; [reflexivity|]. by apply hydrated_after_writes.
Qed.

(** X14. The remote calls of [Update]: the request is addressed to the
    identifier the instance holds; without a client there is no call;
    otherwise an update call exactly when something changed, followed by one
    fetch for the same identifier unless the update call failed. *)
Theorem Update_call_shape meta w :
  UpdateEnterpriseOptions.EnterpriseID (updateEnterpriseOptions (data w)).1
    = Some (Id (data w)) ∧
  calls (resourceIbmEnterpriseUpdate meta w).2 =
  calls w ++
  match conns.EnterpriseManagementV1 meta with
  | inr _ => []
  | inl client =>
      if (updateEnterpriseOptions (data w)).2 then
        UpdateEnterprise (updateEnterpriseOptions (data w)).1 ::
        match (UpdateEnterpriseWithContext client (calls w)
                 (updateEnterpriseOptions (data w)).1).2 with
        | Some _ => []
        | None => [fetch_of (Id (data w))]
        end
      else [fetch_of (Id (data w))]
  end.
Proof.
  split; [apply updateEnterpriseOptions_spec|].
  destruct (conns.EnterpriseManagementV1 meta) as [client|serr] eqn:E.
  - update_cases E client w; try reflexivity.
    + rewrite (Read_calls _ _ _ E). cbn [fetched logged calls data].
      by rewrite <- app_assoc.
    + rewrite (Read_calls _ _ _ E). reflexivity.
  - rewrite (Update_no_session _ _ _ E). cbn. by rewrite app_nil_r.
Qed.

Lemma Read_error_keeps_data meta w ds :
  (resourceIbmEnterpriseRead meta w).1 = Return ds → ds ≠ [] →
  data (resourceIbmEnterpriseRead meta w).2 = data w.
Proof.
  read_cases meta w; cbn [fst snd data fetched]; intros [= <-] Hne;
    try reflexivity; by destruct Hne.
Qed.

(** X15. An error leaves the record alone.  When [Read] or [Update] returns
    an error, the resource data is exactly what it was; when [Create] returns
    an error, at most the identifier has been assigned. *)
Theorem errors_leave_the_record meta w ds :
  ds ≠ [] →
  ((resourceIbmEnterpriseRead meta w).1 = Return ds →
   data (resourceIbmEnterpriseRead meta w).2 = data w) ∧
  ((resourceIbmEnterpriseUpdate meta w).1 = Return ds →
   data (resourceIbmEnterpriseUpdate meta w).2 = data w) ∧
  ((resourceIbmEnterpriseCreate meta w).1 = Return ds →
   data (resourceIbmEnterpriseCreate meta w).2 = data w ∨
   ∃ enterpriseID,
     data (resourceIbmEnterpriseCreate meta w).2 = SetId enterpriseID (data w)).
Proof.
  intros Hne. split; [|split].
  - intros H. by apply (Read_error_keeps_data _ _ ds).
  - destruct (conns.EnterpriseManagementV1 meta) as [client|serr] eqn:E.
    + update_cases E client w.
      * intros _. reflexivity.
      * intros H. by rewrite (Read_error_keeps_data _ _ ds H Hne).
      * intros H. by apply (Read_error_keeps_data _ _ ds).
    + rewrite (Update_no_session _ _ _ E). reflexivity.
  - destruct (conns.EnterpriseManagementV1 meta) as [client|serr] eqn:E.
    + create_cases E client w.
      * intros _. left. reflexivity.
      * intros H. right. exists enterpriseID.
        by rewrite (Read_error_keeps_data _ _ ds H Hne).
      * intros [=].
    + rewrite (Create_no_session _ _ _ E). left. reflexivity.
Qed.

Lemma Read_one_diagnostic meta w ds :
  (resourceIbmEnterpriseRead meta w).1 = Return ds →
  ds = [] ∨ ∃ err, ds = diag.FromErr err.
Proof. read_cases meta w; cbn [fst]; intros [= <-]; eauto. Qed.

(** X16. Whatever an operation returns is nil or one error diagnostic made
    with [diag.FromErr]: no operation returns a warning, or more than one
    diagnostic. *)
Theorem operations_return_one_error_at_most meta w ds :
  ((resourceIbmEnterpriseCreate meta w).1 = Return ds ∨
   (resourceIbmEnterpriseRead meta w).1 = Return ds ∨
   (resourceIbmEnterpriseUpdate meta w).1 = Return ds ∨
   (resourceIbmEnterpriseDelete meta w).1 = Return ds) →
  (ds = [] ∨ ∃ err, ds = diag.FromErr err) ∧
  length ds ≤ 1 ∧
  diag.HasError ds = negb (bool_decide (ds = [])).
Proof.
  intros H.
  assert (ds = [] ∨ ∃ err, ds = diag.FromErr err) as [->|[[msg] ->]];
    [|split; [by left|split; [cbn; lia|reflexivity]]
     |split; [right; by eexists|split; [cbn; lia|reflexivity]]].
  destruct H as [H|[H|[H|H]]].
  - revert H. destruct (conns.EnterpriseManagementV1 meta) as [client|serr] eqn:E.
    + create_cases E client w.
      * intros [= <-]. eauto.
      * apply Read_one_diagnostic.
      * intros [=].
    + rewrite (Create_no_session _ _ _ E). intros [= <-]. eauto.
  - by apply (Read_one_diagnostic meta w).
  - revert H. destruct (conns.EnterpriseManagementV1 meta) as [client|serr] eqn:E.
    + update_cases E client w.
      * intros [= <-]. eauto.
      * apply Read_one_diagnostic.
      * apply Read_one_diagnostic.
    + rewrite (Update_no_session _ _ _ E). intros [= <-]. eauto.
  - rewrite Delete_outcome in H. injection H as <-. by left.
Qed.

Lemma updatable_keys key :
  (∃ sch, schema_lookup key = Some sch ∧
          schema.Computed sch = false ∧ schema.ForceNew sch = false) ↔
  key ∈ ["name"; "primary_contact_iam_id"; "domain"].
Proof.
  split.
  - intros (sch & Hs & Hc & Hf).
    assert (is_Some (schema_lookup key)) as Hk by eauto.
    apply schema_key_cases in Hk.
    repeat (apply elem_of_cons in Hk as [->|Hk];
            [first [ solve [repeat first [apply list_elem_of_here | apply list_elem_of_further]]
                   | exfalso; cbv in Hs; injection Hs as <-; discriminate ]|]).
    by apply elem_of_nil in Hk.
  - intros Hk.
    repeat (apply elem_of_cons in Hk as [->|Hk];
            [eexists; split; [reflexivity|split; reflexivity]|]).
    by apply elem_of_nil in Hk.
Qed.

(** X17. [Update] sends an attribute exactly when it changed and the schema
    allows changing it in place (it is neither computed nor [ForceNew]): no
    updatable attribute is skipped, and nothing else is ever sent. *)
Theorem Update_sends_what_may_change d key :
  key ∈ (carried (updateEnterpriseOptions d).1).*1 ↔
  HasChange key d = true ∧
  ∃ sch, schema_lookup key = Some sch ∧
         schema.Computed sch = false ∧ schema.ForceNew sch = false.
Proof.
  rewrite updatable_keys.
  destruct (updateEnterpriseOptions_spec d) as (_ & -> & _).
  unfold changed. rewrite <- list_fmap_compose, list_fmap_id.
  rewrite list_elem_of_In, List.filter_In, <- list_elem_of_In. tauto.
Qed.

End Further_properties.

(** ** The further properties at concrete inputs *)

(** X2 on a remote that cannot be reached: the error comes with no response. *)
Lemma Read_other_failure_keeps_record_witness :
  (∀ r, @None DetailedResponse.t = Some r → DetailedResponse.StatusCode r ≠ 404%Z) ∧
  (resourceIbmEnterpriseRead (session unreachable) (fresh known)).1
    = Return (diag.FromErr (errorString "dial tcp: i/o timeout")) ∧
  data (resourceIbmEnterpriseRead (session unreachable) (fresh known)).2 = known.
Proof.
  assert (∀ r, @None DetailedResponse.t = Some r → DetailedResponse.StatusCode r ≠ 404%Z) as N
    by (intros r [=]).
  split; [exact N|].
  apply (Read_other_failure_keeps_record (session unreachable) unreachable (fresh known)
           None None (errorString "dial tcp: i/o timeout") eq_refl eq_refl N).
Defined.

(** X4 on a remote whose fetch fails with status 500. *)
Lemma Read_returns_only_remote_errors_witness :
  (resourceIbmEnterpriseRead (session (failing 500 "Internal Server Error")) (fresh known)).1
    = Return (diag.FromErr (errorString "Internal Server Error")) ∧
  (diag.FromErr (errorString "Internal Server Error") = [] ∨
   (∃ err, conns.EnterpriseManagementV1 (session (failing 500 "Internal Server Error"))
             = inr err ∧
           diag.FromErr (errorString "Internal Server Error") = diag.FromErr err) ∨
   (∃ client result response err,
      conns.EnterpriseManagementV1 (session (failing 500 "Internal Server Error"))
        = inl client ∧
      enterprisemanagementv1.GetEnterpriseWithContext client (calls (fresh known))
        (fetch_options (fresh known)) = (result, response, Some err) ∧
      diag.FromErr (errorString "Internal Server Error") = diag.FromErr err)).
Proof.
  assert ((resourceIbmEnterpriseRead (session (failing 500 "Internal Server Error"))
             (fresh known)).1
          = Return (diag.FromErr (errorString "Internal Server Error"))) as H
    by (vm_compute; reflexivity).
  split; [exact H|].
  exact (Read_returns_only_remote_errors _ _ _ H).
Defined.

(** X7 on the example entity without [created_at]. *)
Lemma Read_stops_at_missing_timestamp_witness :
  Enterprise.CreatedAt acme_no_created_at = None ∧
  data (resourceIbmEnterpriseRead (session (serving acme_no_created_at)) (fresh known)).2
    = first_writes acme_no_created_at known.
Proof.
  split; [reflexivity|].
  destruct (Read_stops_at_missing_timestamp (session (serving acme_no_created_at))
              (serving acme_no_created_at) (fresh known) acme_no_created_at
              (Some ok_response) eq_refl eq_refl) as (H & _ & _).
  exact (proj1 (H eq_refl)).
Defined.

(** X8 on a remote that answers the fetch with an empty body. *)
Lemma Read_faults_on_missing_entity_witness :
  data (resourceIbmEnterpriseRead (session answering_nothing) (fresh known)).2 = known.
Proof.
  exact (proj2 (Read_faults_on_missing_entity (session answering_nothing) answering_nothing
                  (fresh known) (Some ok_response) eq_refl eq_refl)).
Defined.

(** X9 on the example entity. *)
Lemma Read_twice_same_entity_witness :
  data (resourceIbmEnterpriseRead (session (serving acme))
          (resourceIbmEnterpriseRead (session (serving acme)) (fresh known)).2).2
  = data (resourceIbmEnterpriseRead (session (serving acme)) (fresh known)).2.
Proof.
  exact (proj2 (Read_twice_same_entity (session (serving acme)) (serving acme) (fresh known)
                  acme (Some ok_response) (Some ok_response) t0 t1
                  eq_refl eq_refl eq_refl eq_refl eq_refl)).
Defined.

(** X10 on the example entity, for the attribute [crn]. *)
Lemma Read_writes_the_schema_witness :
  "crn" ≠ "source_account_id" ∧
  is_Some (rd_set (data (resourceIbmEnterpriseRead (session (serving acme)) (fresh known)).2)
             !! "crn").
Proof.
  assert ("crn" ≠ "source_account_id") as N by discriminate.
  split; [exact N|].
  destruct (Read_writes_the_schema (session (serving acme)) (serving acme) (fresh known)
              acme (Some ok_response) t0 t1 "crn" eq_refl eq_refl eq_refl eq_refl)
    as (H & _ & _).
  apply H; [|exact N]. eexists. reflexivity.
Defined.

(** X11 on a remote that answers the creation call with an empty body. *)
Lemma Create_faults_without_identifier_witness :
  data (resourceIbmEnterpriseCreate (session answering_nothing) (fresh declared)).2 = declared ∧
  calls (resourceIbmEnterpriseCreate (session answering_nothing) (fresh declared)).2
    = [enterprisemanagementv1.CreateEnterprise (createEnterpriseOptions declared)].
Proof.
  exact (proj2 (Create_faults_without_identifier (session answering_nothing) answering_nothing
                  (fresh declared) None (Some ok_response) eq_refl eq_refl eq_refl)).
Defined.

(** X13 on the spec's example of a changed domain: the remote still serves
    [acme.com], and that is what the attribute reads afterwards. *)
Lemma Update_ends_hydrated_witness :
  Get "domain" (data (fresh domain_changed)) = "sub.acme.com" ∧
  (resourceIbmEnterpriseUpdate (session (serving acme)) (fresh domain_changed)).1 = Return [] ∧
  Id (data (resourceIbmEnterpriseUpdate (session (serving acme)) (fresh domain_changed)).2)
    = "ent-123" ∧
  hydrated acme
    (data (resourceIbmEnterpriseUpdate (session (serving acme)) (fresh domain_changed)).2).
Proof.
  split; [reflexivity|].
  apply (Update_ends_hydrated (session (serving acme)) (serving acme) (fresh domain_changed)
           acme (Some ok_response) t0 t1 eq_refl (λ _, eq_refl) eq_refl eq_refl eq_refl).
Defined.

(** X15 on an [Update] whose update call fails. *)
Lemma errors_leave_the_record_witness :
  diag.FromErr (errorString "Internal Server Error") ≠ [] ∧
  data (resourceIbmEnterpriseUpdate (session (failing 500 "Internal Server Error"))
          (fresh domain_changed)).2 = domain_changed.
Proof.
  assert (diag.FromErr (errorString "Internal Server Error") ≠ []) as N by discriminate.
  split; [exact N|].
  destruct (errors_leave_the_record (session (failing 500 "Internal Server Error"))
              (fresh domain_changed) _ N) as (_ & H & _).
  apply H. vm_compute. reflexivity.
Defined.

(** X16 on a [Create] whose creation call is refused. *)
Lemma operations_return_one_error_at_most_witness :
  length (diag.FromErr (errorString "Forbidden")) ≤ 1 ∧
  diag.HasError (diag.FromErr (errorString "Forbidden")) = true.
Proof.
  destruct (operations_return_one_error_at_most (session (failing 403 "Forbidden"))
              (fresh declared) (diag.FromErr (errorString "Forbidden"))) as (_ & L & H).
  - left. vm_compute. reflexivity.
  - split; [exact L | exact H].
Defined.
